(** * Shopping cart service of the DreamFarm agent

    A shallow embedding of
    [src/agents/dreamfarm-agent/src/services/shopping_cart_service.py]
    and the properties of its specification.

    The service talks to three collaborators that are not part of the
    repository: the PostgreSQL store (tables [products], [shopping_carts],
    [shopping_cart_items] and the [SIMILARITY] function of pg_trgm), the
    stock HTTP API and Python's [random] module.  The tables are modelled
    as finite maps keyed by their unique constraints, the other three are
    variables of the section [Service]. *)

From Stdlib Require Import ZArith QArith Qround Lqa String Ascii List Lia.
From Stdlib Require DecimalString.
From stdpp Require Import gmap strings list fin_maps sorting.

Close Scope Q_scope.
Local Open Scope string_scope.
Local Open Scope Z_scope.
Local Open Scope list_scope.

(** ** Values *)

(** A product identifier: the 128-bit integer of a Python [UUID]. *)
Definition UUID := N.

(** Monetary amounts are Python [Decimal]s with two fractional digits;
    they are kept as an exact number of cents.  The [float(...)] applied to
    amounts in the returned dictionaries is a conversion at the boundary
    and is not modelled: the records below hold the [Decimal] value. *)
Definition Decimal := Z.

(** A decoded JSON document, as [response.json()] returns it.  An object
    is the Python dict after decoding, read with first-match lookup. *)
#[warnings="-register-all"]
Inductive json : Type :=
| JNull
| JBool (b : bool)
| JInt (n : Z)
| JFloat (q : Q)
| JStr (s : string)
| JArr (xs : list json)
| JObj (kvs : list (string * json)).

(** Exceptions that the modelled statements raise. *)
Inductive py_exn : Type :=
| HTTPError | HTTPStatusError | JSONDecodeError
| AttributeError | TypeError | KeyError | IndexError.

Inductive result (A : Type) : Type :=
| Ok (a : A)
| Raise (e : py_exn).
Arguments Ok {A} a.
Arguments Raise {A} e.

#[global] Instance result_ret : MRet result := @Ok.

#[global] Instance result_bind : MBind result := λ A B k m,
  match m with
  | Ok a => k a
  | Raise e => Raise e
  end.

(** ** Python operations on decoded JSON *)

Fixpoint assoc (key : string) (kvs : list (string * json)) : option json :=
  match kvs with
  | [] => None
  | (k, v) :: rest => if String.eqb k key then Some v else assoc key rest
  end.

(** [d.get(key, default)]: only a dict has the method. *)
Definition dict_get (d : json) (key : string) (default : json) : result json :=
  match d with
  | JObj kvs =>
      match assoc key kvs with
      | Some v => Ok v
      | None => Ok default
      end
  | _ => Raise AttributeError
  end.

(** Truth value of [if v:]. *)
Definition truthy (v : json) : bool :=
  match v with
  | JNull => false
  | JBool b => b
  | JInt n => negb (n =? 0)
  | JFloat q => negb (Qeq_bool q 0)
  | JStr s => negb (String.eqb s "")
  | JArr xs => match xs with [] => false | _ => true end
  | JObj kvs => match kvs with [] => false | _ => true end
  end.

(** [v[0]]. A decoded object has string keys only, so the integer key is
    never present. *)
Definition getitem0 (v : json) : result json :=
  match v with
  | JArr (x :: _) => Ok x
  | JArr [] => Raise IndexError
  | JStr (String c _) => Ok (JStr (String c ""))
  | JStr EmptyString => Raise IndexError
  | JObj _ => Raise KeyError
  | JNull | JBool _ | JInt _ | JFloat _ => Raise TypeError
  end.

(** ** The stock API *)

(** What [self._http_client.post(url, json=payload)] comes back with: a
    transport failure (connection error, timeout), or a response with a
    status code and a body that decodes as JSON or does not. *)
Inductive http_outcome : Type :=
| TransportError
| Response (status_code : Z) (body : option json).

(** httpx's [Response.is_success]. *)
Definition is_success (status_code : Z) : bool :=
  (200 <=? status_code) && (status_code <=? 299).

Definition post (o : http_outcome) : result (Z * option json) :=
  match o with
  | TransportError => Raise HTTPError
  | Response st b => Ok (st, b)
  end.

Definition raise_for_status (response : Z * option json) : result unit :=
  if is_success (fst response) then Ok tt else Raise HTTPStatusError.

Definition response_json (response : Z * option json) : result json :=
  match snd response with
  | Some data => Ok data
  | None => Raise JSONDecodeError
  end.

(** The body of the [try:] block of [_get_stock_quantity], on the outcome
    of the POST. *)
Definition _get_stock_quantity_try (o : http_outcome) : result json :=
  response ← post o;
  _ ← raise_for_status response;
  data ← response_json response;
  items ← dict_get data "items" (JArr []);
  if truthy items then
    first ← getitem0 items;
    dict_get first "onStock" (JInt 0)
  else Ok (JInt 0).

(** [_get_stock_quantity], on the outcome of the POST: [except Exception]
    turns every exception of the block into the value 0. *)
Definition _get_stock_quantity_on (o : http_outcome) : json :=
  match _get_stock_quantity_try o with
  | Ok v => v
  | Raise _ => JInt 0
  end.

(** The typed view the callers take of the returned value: the stock source
    serves integer counts.  [None] marks a value of another type, on which
    the callers' comparison [quantity > available_stock] is outside this
    model (it raises [TypeError] for a string, a list, a dict or null). *)
Definition as_int (v : json) : option Z :=
  match v with
  | JInt n => Some n
  | _ => None
  end.

(** ** Strings *)

(** White space among the characters below U+0080, as [str.isspace] has
    it: tab to carriage return, the four separators and the space.
    Python knows white space beyond U+007F as well (U+0085, U+00A0,
    U+2003, U+3000, ...); [lstrip], [rstrip] and [strip] below are
    [str.lstrip], [str.rstrip] and [str.strip] on the strings of
    characters below U+0080, those that satisfy [isascii]. *)
Definition is_space (c : ascii) : bool :=
  let n := N_of_ascii c in
  (((9 <=? n) && (n <=? 13)) || ((28 <=? n) && (n <=? 32)))%N.

Fixpoint lstrip (s : string) : string :=
  match s with
  | EmptyString => EmptyString
  | String c rest => if is_space c then lstrip rest else s
  end.

Fixpoint rstrip (s : string) : string :=
  match s with
  | EmptyString => EmptyString
  | String c rest =>
      match rstrip rest with
      | EmptyString => if is_space c then EmptyString else String c EmptyString
      | rest' => String c rest'
      end
  end.

(** [s.strip()] *)
Definition strip (s : string) : string := rstrip (lstrip s).

(** [str(n)] for an integer. *)
Definition str_int (n : Z) : string :=
  DecimalString.NilZero.string_of_int (Z.to_int n).

(** ** Pricing *)

(** Price ranges by category (min, max) in EUR. *)
Definition PRICE_RANGES : list (string * (Q * Q)) :=
  [ ("Vegetables", (2, 8)%Q);
    ("Fruits", (3, 10)%Q);
    ("Dairy", (1, 5)%Q);
    ("Meat", (8, 25)%Q);
    ("Bakery", (2, 6)%Q);
    ("Seafood", (10, 30)%Q);
    ("Beverages", (3 # 2, 8)%Q);
    ("Grains", (3 # 2, 6)%Q);
    ("Snacks", (2, 8)%Q);
    ("Condiments", (3 # 2, 7)%Q) ].

Definition DEFAULT_PRICE_RANGE : Q * Q := (2, 10)%Q.

Fixpoint ranges_get (key : string) (table : list (string * (Q * Q)))
    (default : Q * Q) : Q * Q :=
  match table with
  | [] => default
  | (k, r) :: rest => if String.eqb k key then r else ranges_get key rest default
  end.

(** [random.uniform(a, b)] is [a + (b - a) * random()]; the draw [u] of
    [random()] lies in [0, 1).  Floats are idealised as rationals. *)
Definition uniform (a b u : Q) : Q := (a + (b - a) * u)%Q.

(** Rounding to the nearest integer, ties to even. *)
Definition round_half_even (x : Q) : Z :=
  let f := Qfloor x in
  match Qcompare (x - inject_Z f) (1 # 2) with
  | Lt => f
  | Gt => f + 1
  | Eq => if Z.even f then f else f + 1
  end.

(** [Decimal(str(round(price, 2)))], in cents. *)
Definition round2 (price : Q) : Decimal := round_half_even (price * 100)%Q.

(** [_generate_price], for the draw [u] of the random source. *)
Definition _generate_price (category : option string) (u : Q) : Decimal :=
  let '(min_price, max_price) :=
    ranges_get (default "" category) PRICE_RANGES DEFAULT_PRICE_RANGE in
  let price := uniform min_price max_price u in
  round2 price.

(** ** The store *)

(** A row of [products], as far as the service reads it. *)
Record product : Type := mk_product {
  prod_id : UUID;
  prod_name : string;
  prod_is_vip : bool
}.

#[global] Instance product_eq_dec : EqDecision product.
Proof. unfold UUID. solve_decision. Defined.

(** A row of [shopping_carts]; the user id is the key of the table. *)
Record cart : Type := mk_cart {
  c_id : Z;
  c_created_at : Z;
  c_updated_at : Z
}.

(** A row of [shopping_cart_items]; (cart id, product id) is the key. *)
Record cart_item : Type := mk_cart_item {
  ci_quantity : Z;
  ci_unit_price : Decimal;
  ci_added_at : Z;
  ci_updated_at : Z
}.

(** The three tables.  [products] keeps its scan order; the two cart
    tables are maps on the columns of their unique constraints
    ([ON CONFLICT (user_id)], [ON CONFLICT (cart_id, product_id)]).
    [carts_seq] is the generator of cart ids. *)
Record database : Type := mk_database {
  products : list product;
  shopping_carts : gmap string cart;
  shopping_cart_items : gmap (Z * UUID) cart_item;
  carts_seq : Z
}.

(** The dict [_search_product] returns. *)
Record found : Type := mk_found {
  f_product_id : UUID;
  f_product_name : string;
  f_category : option string;
  f_is_organic : bool;
  f_sim : Q
}.

Definition Qltb (a b : Q) : bool := negb (Qle_bool b a).

(** [ORDER BY sim DESC LIMIT 1]: a row of greatest [sim]; among equal
    scores the first in scan order. *)
Fixpoint order_by_sim_desc_limit_1 (rows : list found) : option found :=
  match rows with
  | [] => None
  | r :: rest =>
      match order_by_sim_desc_limit_1 rest with
      | None => Some r
      | Some best => if Qltb (f_sim r) (f_sim best) then Some best else Some r
      end
  end.

(** *** Statements on the cart tables *)

Definition with_carts (d : database) (carts : gmap string cart)
    (seq : Z) : database :=
  mk_database (products d) carts (shopping_cart_items d) seq.

Definition with_items (d : database)
    (items : gmap (Z * UUID) cart_item) : database :=
  mk_database (products d) (shopping_carts d) items (carts_seq d).

(** [INSERT INTO shopping_carts ... ON CONFLICT (user_id) DO UPDATE SET
    updated_at = NOW() RETURNING id] *)
Definition ensure_cart (d : database) (user_id : string) (now : Z)
    : Z * database :=
  match shopping_carts d !! user_id with
  | Some c =>
      (c_id c,
       with_carts d
         (<[user_id := mk_cart (c_id c) (c_created_at c) now]> (shopping_carts d))
         (carts_seq d))
  | None =>
      let id := carts_seq d + 1 in
      (id, with_carts d (<[user_id := mk_cart id now now]> (shopping_carts d)) id)
  end.

(** [INSERT INTO shopping_cart_items ... ON CONFLICT (cart_id, product_id)
    DO UPDATE SET quantity = shopping_cart_items.quantity +
    EXCLUDED.quantity, updated_at = NOW() RETURNING quantity, unit_price] *)
Definition upsert_item (d : database) (cart_id : Z) (product_id : UUID)
    (quantity : Z) (unit_price : Decimal) (now : Z)
    : (Z * Decimal) * database :=
  match shopping_cart_items d !! (cart_id, product_id) with
  | None =>
      ((quantity, unit_price),
       with_items d
         (<[(cart_id, product_id) := mk_cart_item quantity unit_price now now]>
            (shopping_cart_items d)))
  | Some old =>
      let q := ci_quantity old + quantity in
      ((q, ci_unit_price old),
       with_items d
         (<[(cart_id, product_id) :=
              mk_cart_item q (ci_unit_price old) (ci_added_at old) now]>
            (shopping_cart_items d)))
  end.

(** [UPDATE shopping_cart_items SET quantity = %s, updated_at = NOW()
    WHERE cart_id = %s AND product_id = %s] *)
Definition update_item (d : database) (cart_id : Z) (product_id : UUID)
    (quantity : Z) (now : Z) : database :=
  with_items d
    (alter (λ old, mk_cart_item quantity (ci_unit_price old) (ci_added_at old) now)
       (cart_id, product_id) (shopping_cart_items d)).

(** [DELETE FROM shopping_cart_items WHERE cart_id = %s AND product_id = %s] *)
Definition delete_item (d : database) (cart_id : Z) (product_id : UUID)
    : database :=
  with_items d (delete (cart_id, product_id) (shopping_cart_items d)).

(** A row of the SELECT of [get_cart]. *)
Record cart_row : Type := mk_cart_row {
  row_product_id : UUID;
  row_product_name : string;
  row_quantity : Z;
  row_unit_price : Decimal;
  row_total_price : Decimal;
  row_added_at : Z;
  row_updated_at : Z
}.

(** [... FROM shopping_carts sc JOIN shopping_cart_items sci ON sci.cart_id
    = sc.id JOIN products p ON p.product_id = sci.product_id WHERE
    sc.user_id = %s], before the ordering. *)
Definition joined_rows (d : database) (user_id : string) : list cart_row :=
  match shopping_carts d !! user_id with
  | None => []
  | Some sc =>
      flat_map
        (λ '((cart_id, product_id), sci),
           if bool_decide (cart_id = c_id sc) then
             List.map
               (λ p, mk_cart_row product_id (prod_name p) (ci_quantity sci)
                       (ci_unit_price sci) (ci_quantity sci * ci_unit_price sci)
                       (ci_added_at sci) (ci_updated_at sci))
               (List.filter (λ p, bool_decide (prod_id p = product_id)) (products d))
           else [])
        (map_to_list (shopping_cart_items d))
  end.

(** [ORDER BY sci.added_at DESC] *)
Definition added_at_desc (r1 r2 : cart_row) : Prop :=
  row_added_at r2 ≤ row_added_at r1.

#[global] Instance added_at_desc_dec r1 r2 : Decision (added_at_desc r1 r2).
Proof. unfold added_at_desc. apply _. Defined.

Definition select_cart (d : database) (user_id : string) : list cart_row :=
  merge_sort added_at_desc (joined_rows d user_id).

(** [pinned d d']: every line of [d] is still in [d'] with the unit price
    and the time of its first add. *)
Definition pinned (d d' : database) : Prop :=
  ∀ key line, shopping_cart_items d !! key = Some line →
    ∃ line', shopping_cart_items d' !! key = Some line'
      ∧ ci_unit_price line' = ci_unit_price line
      ∧ ci_added_at line' = ci_added_at line.

(** ** The service *)

(** What a call leaves behind: the store, the number of requests sent to
    the stock API so far and the number of draws taken from the random
    source so far. *)
Record world : Type := mk_world {
  db : database;
  stock_requests : nat;
  rng_draws : nat
}.

Definition with_db (w : world) (d : database) : world :=
  mk_world d (stock_requests w) (rng_draws w).

(** An element of the [items] argument of [add_to_cart]; an absent key is
    [None]. *)
Record request_item : Type := mk_request_item {
  it_product_name : option string;
  it_quantity : option Z;
  it_category : option string;
  it_is_organic : option bool
}.

(** An element of [added_items]. *)
Record added_item : Type := mk_added_item {
  added_product_id : UUID;
  added_product_name : string;
  added_quantity : Z;
  added_unit_price : Decimal;
  added_total_price : Decimal
}.

(** An element of [failed_items]; a key the dict does not have is [None]. *)
Record failed_item : Type := mk_failed_item {
  failed_product_name : string;
  failed_product_id : option UUID;
  failed_requested_quantity : option Z;
  failed_available_stock : option Z;
  failed_error : string
}.

(** An element of [items] of [get_cart]. *)
Record cart_entry : Type := mk_cart_entry {
  entry_product_id : UUID;
  entry_product_name : string;
  entry_quantity : Z;
  entry_unit_price : Decimal;
  entry_total_price : Decimal;
  entry_available_stock : json;
  entry_added_at : Z;
  entry_updated_at : Z
}.

(** The dict [get_cart] returns. *)
Record cart_summary : Type := mk_cart_summary {
  summary_items : list cart_entry;
  summary_total_items : Z;
  summary_total_price : Decimal;
  summary_currency : string
}.

(** The two shapes of the dict [add_to_cart] returns: the early return
    when no cart id came back, and the return after the loop. *)
Inductive add_result : Type :=
| NoCart (error : string) (failed_items : list request_item)
| Added (success : bool) (added_items : list added_item)
    (failed_items : list failed_item) (cart_total : Decimal) (total_items : Z).

(** The dict [update_cart_item] returns. *)
Inductive update_result : Type :=
| UpdateError (error : string) (available_stock : option Z)
| Updated (cart : cart_summary).

(** The locals of the loop of [add_to_cart]. *)
Record loop_state : Type := mk_loop_state {
  ls_world : world;
  ls_added : list added_item;
  ls_failed : list failed_item
}.

Definition fail_item (st : loop_state) (w : world) (f : failed_item)
    : loop_state :=
  mk_loop_state w (ls_added st) (ls_failed st ++ [f]).

(** The arguments of one call of [add_to_cart] and the time at which its
    transaction starts. *)
Record add_call : Type := mk_add_call {
  call_user_id : string;
  call_items : list request_item;
  call_user_is_vip : bool;
  call_now : Z
}.

Section Service.

(** pg_trgm's [SIMILARITY(a, b)]. *)
Variable SIMILARITY : string -> string -> Q.

(** The outcome of the n-th request to the stock API, for the product
    it asks about.  Nothing is cached: two requests for one product may
    be answered differently. *)
Variable stock_api : nat -> UUID -> http_outcome.

(** The n-th draw of [random.random()]. *)
Variable random : nat -> Q.

(** [UUID(s)]; [None] where it raises [ValueError]. *)
Variable parse_uuid : string -> option UUID.

Definition _get_stock_quantity (product_id : UUID) (w : world)
    : json * world :=
  (_get_stock_quantity_on (stock_api (stock_requests w) product_id),
   mk_world (db w) (S (stock_requests w)) (rng_draws w)).

Definition generate_price (category : option string) (w : world)
    : Decimal * world :=
  (_generate_price category (random (rng_draws w)),
   mk_world (db w) (stock_requests w) (S (rng_draws w))).

(** The WHERE clause of [_search_product]. *)
Definition search_where (product_name : string) (user_is_vip : bool)
    (p : product) : bool :=
  (negb (prod_is_vip p) || user_is_vip)
  && Qltb (3 # 10) (SIMILARITY (prod_name p) product_name).

(** The SELECT list of [_search_product]. *)
Definition search_select (product_name : string) (p : product) : found :=
  mk_found (prod_id p) (prod_name p) (Some "Unknown") false
    (SIMILARITY (prod_name p) product_name).

(** [_search_product]; the two filters are accepted and not used. *)
Definition _search_product (d : database) (product_name : string)
    (user_is_vip : bool) (category : option string)
    (is_organic : option bool) : option found :=
  order_by_sim_desc_limit_1
    (List.map (search_select product_name)
       (List.filter (search_where product_name user_is_vip) (products d))).

(** One iteration of the loop of [get_cart]. *)
Definition get_cart_step (acc : list cart_entry * Z * Decimal * world)
    (row : cart_row) : list cart_entry * Z * Decimal * world :=
  let '(items, total_items, total_price, w) := acc in
  let '(stock, w') := _get_stock_quantity (row_product_id row) w in
  let item :=
    mk_cart_entry (row_product_id row) (row_product_name row)
      (row_quantity row) (row_unit_price row) (row_total_price row)
      stock (row_added_at row) (row_updated_at row) in
  (items ++ [item], total_items + row_quantity row,
   total_price + row_total_price row, w').

Definition get_cart (user_id : string) (w : world) : cart_summary * world :=
  let rows := select_cart (db w) user_id in
  let '(items, total_items, total_price, w') :=
    fold_left get_cart_step rows ([], 0, 0, w) in
  (mk_cart_summary items total_items total_price "EUR", w').

(** One iteration of the loop of [add_to_cart].  [None]: the stock
    source served a value that is not an integer. *)
Definition process_item (cart_id : Z) (user_is_vip : bool) (now : Z)
    (st : loop_state) (item : request_item) : option loop_state :=
  let product_name := strip (default "" (it_product_name item)) in
  let quantity := default 1 (it_quantity item) in
  let category_filter := it_category item in
  let is_organic_filter := it_is_organic item in
  if String.eqb product_name "" then
    Some (fail_item st (ls_world st)
            (mk_failed_item product_name None None None
               "Product name is required"))
  else if quantity <=? 0 then
    Some (fail_item st (ls_world st)
            (mk_failed_item product_name None None None
               "Quantity must be positive"))
  else
    match _search_product (db (ls_world st)) product_name user_is_vip
            category_filter is_organic_filter with
    | None =>
        Some (fail_item st (ls_world st)
                (mk_failed_item product_name None (Some quantity) None
                   "Product not found"))
    | Some product =>
        let product_id := f_product_id product in
        let '(stock, w1) := _get_stock_quantity product_id (ls_world st) in
        available_stock ← as_int stock;
        if available_stock <? quantity then
          Some (fail_item st w1
                  (mk_failed_item (f_product_name product) (Some product_id)
                     (Some quantity) (Some available_stock)
                     ("Insufficient stock (only " ++ str_int available_stock
                        ++ " available)")%string))
        else
          let '(unit_price, w2) := generate_price (f_category product) w1 in
          let '((final_quantity, final_price), d3) :=
            upsert_item (db w2) cart_id product_id quantity unit_price now in
          if available_stock <? final_quantity then
            let d4 := update_item d3 cart_id product_id available_stock now in
            let failed :=
              ls_failed st ++
                [mk_failed_item (f_product_name product) (Some product_id)
                   (Some quantity) (Some available_stock)
                   ("Reduced quantity to available stock ("
                      ++ str_int available_stock ++ ")")%string] in
            let final_quantity := available_stock in
            Some (mk_loop_state (with_db w2 d4)
                    (ls_added st ++
                       [mk_added_item product_id (f_product_name product)
                          quantity final_price (final_price * final_quantity)])
                    failed)
          else
            Some (mk_loop_state (with_db w2 d3)
                    (ls_added st ++
                       [mk_added_item product_id (f_product_name product)
                          quantity final_price (final_price * final_quantity)])
                    (ls_failed st))
    end.

(** [for item in items: ...] *)
Fixpoint process_items (cart_id : Z) (user_is_vip : bool) (now : Z)
    (items : list request_item) (st : loop_state) : option loop_state :=
  match items with
  | [] => Some st
  | item :: rest =>
      st' ← process_item cart_id user_is_vip now st item;
      process_items cart_id user_is_vip now rest st'
  end.

(** [add_to_cart], in a transaction that starts at [now]. *)
Definition add_to_cart (user_id : string) (items : list request_item)
    (user_is_vip : bool) (now : Z) (w : world)
    : option (add_result * world) :=
  let '(cart_id, d1) := ensure_cart (db w) user_id now in
  if cart_id =? 0 then
    Some (NoCart "Failed to create or retrieve cart" items, with_db w d1)
  else
    st ← process_items cart_id user_is_vip now items
           (mk_loop_state (with_db w d1) [] []);
    let '(cart_summary, w') := get_cart user_id (ls_world st) in
    Some (Added (bool_decide (length (ls_failed st) = 0%nat))
            (ls_added st) (ls_failed st)
            (summary_total_price cart_summary)
            (summary_total_items cart_summary),
          w').

(** The part of [update_cart_item] that runs on the store. *)
Definition update_cart_item_store (user_id : string) (product_uuid : UUID)
    (quantity : Z) (now : Z) (w : world) : update_result * world :=
  match shopping_carts (db w) !! user_id with
  | None => (UpdateError "Cart not found" None, w)
  | Some cart_result =>
      let cart_id := c_id cart_result in
      let d' :=
        if quantity =? 0 then delete_item (db w) cart_id product_uuid
        else update_item (db w) cart_id product_uuid quantity now in
      let '(cart_summary, w') := get_cart user_id (with_db w d') in
      (Updated cart_summary, w')
  end.

Definition update_cart_item (user_id : string) (product_id : string)
    (quantity : Z) (now : Z) (w : world) : option (update_result * world) :=
  match parse_uuid product_id with
  | None => Some (UpdateError "Invalid product ID" None, w)
  | Some product_uuid =>
      if quantity <? 0 then
        Some (UpdateError "Quantity cannot be negative" None, w)
      else if 0 <? quantity then
        let '(stock, w1) := _get_stock_quantity product_uuid w in
        available_stock ← as_int stock;
        if available_stock <? quantity then
          Some (UpdateError
                  ("Insufficient stock (only " ++ str_int available_stock
                     ++ " available)")%string
                  (Some available_stock), w1)
        else Some (update_cart_item_store user_id product_uuid quantity now w1)
      else Some (update_cart_item_store user_id product_uuid quantity now w)
  end.

Definition remove_from_cart (user_id : string) (product_id : string)
    (now : Z) (w : world) : option (update_result * world) :=
  update_cart_item user_id product_id 0 now w.

(** A run of calls of [add_to_cart], each on the world the one before
    left. *)
Fixpoint add_calls (calls : list add_call) (w : world) : option world :=
  match calls with
  | [] => Some w
  | c :: rest =>
      r ← add_to_cart (call_user_id c) (call_items c) (call_user_is_vip c)
            (call_now c) w;
      add_calls rest r.2
  end.

End Service.

(** *** Clearing the cart *)

(** [SELECT id FROM shopping_carts WHERE user_id = %s] *)
Definition cart_ids_of (d : database) (user_id : string) : list Z :=
  match shopping_carts d !! user_id with
  | Some sc => [c_id sc]
  | None => []
  end.

(** [DELETE FROM shopping_cart_items WHERE cart_id IN (SELECT id FROM
    shopping_carts WHERE user_id = %s)] *)
Definition delete_cart_items (d : database) (user_id : string) : database :=
  with_items d
    (filter (λ kv : (Z * UUID) * cart_item, kv.1.1 ∉ cart_ids_of d user_id)
       (shopping_cart_items d)).

(** The dict [clear_cart] returns. *)
Record clear_result : Type := mk_clear_result {
  clear_success : bool;
  clear_message : string
}.

Definition clear_cart (user_id : string) (w : world) : clear_result * world :=
  (mk_clear_result true "Cart cleared",
   with_db w (delete_cart_items (db w) user_id)).

(** *** Construction *)

(** [s.rstrip("/")] *)
Fixpoint rstrip_slash (s : string) : string :=
  match s with
  | EmptyString => EmptyString
  | String c rest =>
      match rstrip_slash rest with
      | EmptyString =>
          if Ascii.eqb c "/" then EmptyString else String c EmptyString
      | rest' => String c rest'
      end
  end.

(** [os.getenv(key, default)] on the environment [env]. *)
Definition getenv (env : gmap string string) (key default : string) : string :=
  match env !! key with
  | Some v => v
  | None => default
  end.

(** The attributes [__init__] computes; the configuration object and the
    HTTP client are kept as they are given and are left out. *)
Record service : Type := mk_service {
  _stock_api_url : string;
  _db_url : string
}.

Definition __init__ (env : gmap string string) (stock_api_url : string)
    : service :=
  let db_host := getenv env "PGHOST" "localhost" in
  let db_port := getenv env "PGPORT" "5432" in
  let db_name := getenv env "PGDATABASE" "aidb" in
  let db_user := getenv env "PGUSER" "admin" in
  let db_password := getenv env "PGPASSWORD" "" in
  mk_service (rstrip_slash stock_api_url)
    ("postgresql://" ++ db_user ++ ":" ++ db_password ++ "@" ++ db_host
       ++ ":" ++ db_port ++ "/" ++ db_name)%string.

(** The [url] of [_get_stock_quantity]. *)
Definition stock_url (self : service) : string :=
  (_stock_api_url self ++ "/stock")%string.

(** *** Notions used in the statements *)

Definition sum_of {A : Type} (f : A → Z) (l : list A) : Z :=
  foldr (λ x acc, f x + acc) 0 l.

(** The entry the loop of [get_cart] builds from a row and the stock value
    fetched for it. *)
Definition entry_of_row (row : cart_row) (stock : json) : cart_entry :=
  mk_cart_entry (row_product_id row) (row_product_name row)
    (row_quantity row) (row_unit_price row) (row_total_price row)
    stock (row_added_at row) (row_updated_at row).

(** The entries of rows whose stock is fetched by the requests number
    [n], [n + 1], ... *)
Fixpoint entries_from (stock_api : nat → UUID → http_outcome) (n : nat)
    (rows : list cart_row) : list cart_entry :=
  match rows with
  | [] => []
  | row :: rest =>
      entry_of_row row
        (_get_stock_quantity_on (stock_api n (row_product_id row)))
      :: entries_from stock_api (S n) rest
  end.

(** The row of the SELECT of [get_cart] for a line and a product. *)
Definition row_of_line (p : product) (sci : cart_item) : cart_row :=
  mk_cart_row (prod_id p) (prod_name p) (ci_quantity sci) (ci_unit_price sci)
    (ci_quantity sci * ci_unit_price sci) (ci_added_at sci) (ci_updated_at sci).

(** Most recently added first. *)
Definition newest_first (e1 e2 : cart_entry) : Prop :=
  entry_added_at e2 ≤ entry_added_at e1.

(** No line with a quantity of zero or less. *)
Definition positive_lines (d : database) : Prop :=
  map_Forall (λ _ line, 0 < ci_quantity line) (shopping_cart_items d).

(** An item without its two filters. *)
Definition without_filters (item : request_item) : request_item :=
  mk_request_item (it_product_name item) (it_quantity item) None None.

(** A string of white space only. *)
Fixpoint blank (s : string) : bool :=
  match s with
  | EmptyString => true
  | String c rest => is_space c && blank rest
  end.

(** [s.isascii()]: every character is below U+0080. *)
Fixpoint isascii (s : string) : bool :=
  match s with
  | EmptyString => true
  | String c rest => (N_of_ascii c <? 128)%N && isascii rest
  end.

(** ** A concrete world, for running the service *)

(** Trigram similarity in the manner of pg_trgm: the strings are put in
    lower case and cut into words of letters and digits, every word is
    padded with two blanks in front and one behind, and the score is the
    number of shared trigrams over the number of distinct trigrams. *)
Module Trgm.

Definition lower (c : ascii) : ascii :=
  let n := N_of_ascii c in
  if ((65 <=? n) && (n <=? 90))%N then ascii_of_N (n + 32) else c.

Definition is_alnum (c : ascii) : bool :=
  let n := N_of_ascii c in
  (((48 <=? n) && (n <=? 57)) || ((65 <=? n) && (n <=? 90))
   || ((97 <=? n) && (n <=? 122)))%N.

(** The words of [s]; [cur] is the word being read. *)
Fixpoint words (s : string) (cur : string) : list string :=
  match s with
  | EmptyString => if String.eqb cur "" then [] else [cur]
  | String c rest =>
      if is_alnum c then words rest (cur ++ String (lower c) "")%string
      else if String.eqb cur "" then words rest ""
      else cur :: words rest ""
  end.

Fixpoint windows (s : string) : list string :=
  match s with
  | String a rest =>
      match rest with
      | String b (String c _) =>
          String a (String b (String c "")) :: windows rest
      | _ => []
      end
  | EmptyString => []
  end.

Definition trigrams (s : string) : list string :=
  remove_dups (flat_map (λ w, windows ("  " ++ w ++ " ")%string) (words s "")).

Definition similarity (a b : string) : Q :=
  let ta := trigrams a in
  let tb := trigrams b in
  match length (list_union ta tb) with
  | O => 0%Q
  | S n => Qmake (Z.of_nat (length (list_intersection ta tb))) (Pos.of_succ_nat n)
  end.

End Trgm.

(** A small store and its surroundings: a catalog of two products, the
    second one restricted; a stock source that answers 10 for every
    product; a random source that always draws 15/16; and a parser that
    knows the identifier of the first product. *)
Module Example.

Definition tomato : product := mk_product 7%N "Tomato" false.
Definition caviar : product := mk_product 8%N "Caviar" true.

Definition catalog : list product := [tomato; caviar].

Definition stock_10 (n : nat) (product_id : UUID) : http_outcome :=
  Response 200 (Some (JObj [("items", JArr [JObj [("onStock", JInt 10)]])])).

Definition draw (n : nat) : Q := (15 # 16)%Q.

Definition tomato_id : string := "00000000-0000-0000-0000-000000000007".

Definition parse (s : string) : option UUID :=
  if String.eqb s tomato_id then Some 7%N else None.

(** No cart yet. *)
Definition fresh : world := mk_world (mk_database catalog ∅ ∅ 0) 0 0.

Definition alice_cart : cart := mk_cart 1 50 50.

Definition tomato_line : cart_item := mk_cart_item 2 950 50 50.

(** Alice has a cart with two tomatoes in it, priced 9.50. *)
Definition stocked : world :=
  mk_world
    (mk_database catalog {["alice" := alice_cart]}
       {[(1, 7%N) := tomato_line]} 1)
    0 0.

(** Alice has a cart with nothing in it. *)
Definition emptied : world :=
  mk_world (mk_database catalog {["alice" := alice_cart]} ∅ 1) 0 0.

Definition tomatoe (quantity : option Z) : request_item :=
  mk_request_item (Some "Tomatoe") quantity None None.

End Example.

(** * Properties *)

(** ** Stock lookup *)

(** C5. [_get_stock_quantity] is a total function of the outcome of the
    request: it hands a value to its caller whatever the stock API did.
    The value is 0 on a transport error, on a status that is not a
    success, on a body that does not decode, on a body that is not an
    object, and when [items] is missing, empty or does not start with an
    object; otherwise it is the [onStock] field of the first item, 0 when
    that field is absent. *)
Theorem get_stock_quantity_never_raises
    (stock_api : nat -> UUID -> http_outcome) (product_id : UUID) (w : world) :
  ∃ v w', _get_stock_quantity stock_api product_id w = (v, w')
    ∧ db w' = db w
    ∧ match stock_api (stock_requests w) product_id with
      | TransportError => v = JInt 0
      | Response status_code body =>
          if is_success status_code then
            match body with
            | None => v = JInt 0
            | Some (JObj kvs) =>
                match assoc "items" kvs with
                | Some (JArr (JObj fields :: _)) =>
                    v = default (JInt 0) (assoc "onStock" fields)
                | _ => v = JInt 0
                end
            | Some _ => v = JInt 0
            end
          else v = JInt 0
      end.
Proof.
  unfold _get_stock_quantity. eexists _, _. split; [reflexivity|].
  split; [reflexivity|].
  unfold _get_stock_quantity_on, _get_stock_quantity_try.
  destruct (stock_api _ _) as [|st body]; cbn; [reflexivity|].
  unfold raise_for_status; cbn.
  destruct (is_success st); cbn; [|reflexivity].
  destruct body as [data|]; cbn; [|reflexivity].
  destruct data as [ | | | | |xs|kvs]; cbn; try reflexivity.
  destruct (assoc "items" kvs) as [items|]; cbn; [|reflexivity].
  destruct items as [ |b|n|q|s|xs|kvs']; cbn; try reflexivity.
  - destruct b; reflexivity.
  - destruct (Z.eqb n 0); reflexivity.
  - destruct (Qeq_bool q 0); reflexivity.
  - destruct s; reflexivity.
  - destruct xs as [|x xs]; cbn; [reflexivity|].
    destruct x as [ | | | | | |fields]; cbn; try reflexivity.
    destruct (assoc "onStock" fields); reflexivity.
  - destruct kvs'; reflexivity.
Qed.

(** ** Product search *)

Lemma Qltb_lt (a b : Q) : Qltb a b = true ↔ (a < b)%Q.
Proof.
  unfold Qltb. rewrite negb_true_iff, <- not_true_iff_false, Qle_bool_iff.
  split; [apply Qnot_le_lt | apply Qlt_not_le].
Qed.

Lemma Qltb_ge (a b : Q) : Qltb a b = false ↔ (b <= a)%Q.
Proof.
  unfold Qltb. rewrite negb_false_iff. apply Qle_bool_iff.
Qed.

Lemma order_by_sim_None (rows : list found) :
  order_by_sim_desc_limit_1 rows = None ↔ rows = [].
Proof.
  destruct rows as [|r rest]; cbn; [tauto|].
  destruct (order_by_sim_desc_limit_1 rest) as [best|]; [|split; discriminate].
  destruct (Qltb _ _); split; discriminate.
Qed.

Lemma order_by_sim_Some (rows : list found) (r : found) :
  order_by_sim_desc_limit_1 rows = Some r →
  r ∈ rows ∧ ∀ r', r' ∈ rows → (f_sim r' <= f_sim r)%Q.
Proof.
  revert r. induction rows as [|x rest IH]; intros r; cbn; [discriminate|].
  destruct (order_by_sim_desc_limit_1 rest) as [best|] eqn:Hrest.
  - destruct (IH best eq_refl) as [Hin Hmax].
    destruct (Qltb (f_sim x) (f_sim best)) eqn:Hcmp; intros [= <-].
    + apply Qltb_lt in Hcmp. split; [by right|].
      intros r' [->|Hr']%elem_of_cons; [by apply Qlt_le_weak | by apply Hmax].
    + apply Qltb_ge in Hcmp. split; [by left|].
      intros r' [->|Hr']%elem_of_cons; [apply Qle_refl|].
      eapply Qle_trans; [by apply Hmax | done].
  - apply order_by_sim_None in Hrest as ->. intros [= <-].
    split; [by left|].
    intros r' [->|Hr']%elem_of_cons; [apply Qle_refl | by inversion Hr'].
Qed.

Section SearchFacts.

Variable SIMILARITY : string -> string -> Q.

Lemma search_where_spec (name : string) (vip : bool) (p : product) :
  search_where SIMILARITY name vip p = true ↔
  (prod_is_vip p = false ∨ vip = true)
  ∧ (3 # 10 < SIMILARITY (prod_name p) name)%Q.
Proof.
  unfold search_where.
  rewrite andb_true_iff, orb_true_iff, negb_true_iff, Qltb_lt. tauto.
Qed.

Lemma search_rows_elem (d : database) (name : string) (vip : bool) (r : found) :
  r ∈ List.map (search_select SIMILARITY name)
        (List.filter (search_where SIMILARITY name vip) (products d)) ↔
  ∃ p, p ∈ products d ∧ search_where SIMILARITY name vip p = true
       ∧ r = search_select SIMILARITY name p.
Proof.
  rewrite list_elem_of_In, in_map_iff. split.
  - intros (p & <- & [Hp Hw]%filter_In). exists p.
    by rewrite list_elem_of_In.
  - intros (p & Hp & Hw & ->). exists p. split; [done|].
    apply filter_In. by rewrite <- list_elem_of_In.
Qed.

End SearchFacts.


(** ** Pricing *)

Lemma round_half_even_bounds (x : Q) (a b : Z) :
  (inject_Z a <= x)%Q → (x <= inject_Z b)%Q →
  a ≤ round_half_even x ≤ b.
Proof.
  intros Ha Hb. unfold round_half_even.
  pose proof (Qfloor_resp_le _ _ Ha) as Hfa. rewrite Qfloor_Z in Hfa.
  pose proof (Qfloor_resp_le _ _ Hb) as Hfb. rewrite Qfloor_Z in Hfb.
  pose proof (Qfloor_le x) as Hfx.
  assert ((1 # 2 <= x - inject_Z (Qfloor x))%Q → Qfloor x + 1 ≤ b) as Hup.
  { intros Hhalf. destruct (decide (Qfloor x = b)) as [Heq|Hne]; [|lia].
    rewrite Heq in Hhalf. lra. }
  destruct (Qcompare _ _) eqn:Hcmp.
  - apply Qeq_alt in Hcmp. destruct (Z.even _); [lia|].
    split; [lia|]. apply Hup. rewrite Hcmp. apply Qle_refl.
  - lia.
  - apply Qgt_alt in Hcmp. split; [lia|]. apply Hup. by apply Qlt_le_weak.
Qed.

(** The price of a product of category 'Unknown' is drawn from the
    default range and may be rounded up to its upper end. *)
Lemma generate_price_unknown_bounds (u : Q) :
  (0 <= u)%Q → (u < 1)%Q →
  200 ≤ _generate_price (Some "Unknown") u ≤ 1000.
Proof.
  intros H0 H1. unfold _generate_price. cbn. unfold round2, uniform.
  apply round_half_even_bounds.
  - change (inject_Z 200) with (200 # 1)%Q. lra.
  - change (inject_Z 1000) with (1000 # 1)%Q. lra.
Qed.

Section SearchBest.

Variable SIMILARITY : string -> string -> Q.

(** A visible product that beats every other visible product and the
    threshold is the one [_search_product] returns. *)
Lemma search_strict_best (d : database) (name : string) (vip : bool)
    (category : option string) (is_organic : option bool) (p : product) :
  p ∈ products d →
  prod_is_vip p = false ∨ vip = true →
  (3 # 10 < SIMILARITY (prod_name p) name)%Q →
  (∀ q, q ∈ products d → q ≠ p → prod_is_vip q = false ∨ vip = true →
        (SIMILARITY (prod_name q) name < SIMILARITY (prod_name p) name)%Q) →
  _search_product SIMILARITY d name vip category is_organic
  = Some (search_select SIMILARITY name p).
Proof.
  intros Hp Hvis Hsim Hbest. unfold _search_product.
  assert (search_select SIMILARITY name p
          ∈ List.map (search_select SIMILARITY name)
              (List.filter (search_where SIMILARITY name vip) (products d)))
    as Hrow.
  { apply search_rows_elem. exists p. repeat split; [done|].
    by apply search_where_spec. }
  destruct (order_by_sim_desc_limit_1 _) as [r|] eqn:Hres.
  - apply order_by_sim_Some in Hres as [Hin Hmax].
    apply search_rows_elem in Hin as (p' & Hp' & Hw & ->).
    destruct (decide (p' = p)) as [->|Hne]; [done|].
    apply search_where_spec in Hw as [Hvis' _].
    specialize (Hmax _ Hrow). cbn in Hmax.
    specialize (Hbest p' Hp' Hne Hvis').
    by apply Qlt_not_le in Hbest.
  - apply order_by_sim_None in Hres. rewrite Hres in Hrow. inversion Hrow.
Qed.

End SearchBest.

(** ** Reading the cart *)

Section CartFacts.

Variable stock_api : nat -> UUID -> http_outcome.

Lemma get_cart_loop_spec (rows : list cart_row)
    (acc : list cart_entry * Z * Decimal * world) :
  let out := fold_left (get_cart_step stock_api) rows acc in
  db out.2 = db acc.2
  ∧ entry_product_id <$> out.1.1.1
    = (entry_product_id <$> acc.1.1.1) ++ (row_product_id <$> rows).
Proof.
  revert acc. induction rows as [|row rows IH]; intros acc; cbn.
  - by rewrite app_nil_r.
  - destruct acc as [[[items total_items] total_price] w].
    destruct (IH (get_cart_step stock_api (items, total_items, total_price, w) row))
      as [Hdb Hids].
    cbn in *. rewrite Hdb, Hids. split; [done|].
    by rewrite fmap_app, <- app_assoc.
Qed.

Lemma get_cart_db (user_id : string) (w : world) :
  db (get_cart stock_api user_id w).2 = db w.
Proof.
  unfold get_cart.
  pose proof (get_cart_loop_spec (select_cart (db w) user_id) ([], 0, 0, w)) as [H _].
  destruct (fold_left _ _ _) as [[[items total_items] total_price] w'].
  exact H.
Qed.

Lemma get_cart_product_ids (user_id : string) (w : world) :
  entry_product_id <$> summary_items (get_cart stock_api user_id w).1
  = row_product_id <$> select_cart (db w) user_id.
Proof.
  unfold get_cart.
  pose proof (get_cart_loop_spec (select_cart (db w) user_id) ([], 0, 0, w)) as [_ H].
  destruct (fold_left _ _ _) as [[[items total_items] total_price] w'].
  exact H.
Qed.

Lemma joined_rows_line (d : database) (user_id : string) (row : cart_row) :
  row ∈ joined_rows d user_id →
  ∃ sc sci, shopping_carts d !! user_id = Some sc
    ∧ shopping_cart_items d !! (c_id sc, row_product_id row) = Some sci.
Proof.
  unfold joined_rows.
  destruct (shopping_carts d !! user_id) as [sc|]; [|by inversion 1].
  rewrite list_elem_of_In, in_flat_map.
  intros ([[cart_id product_id] sci] & Hin & Hrow).
  apply list_elem_of_In, elem_of_map_to_list in Hin.
  case_bool_decide as Hcart; [|by destruct Hrow].
  apply in_map_iff in Hrow as (p & <- & _). cbn.
  exists sc, sci. by subst cart_id.
Qed.

(** Every product that [get_cart] lists has a line in the cart of the
    user. *)
Lemma get_cart_listed (user_id : string) (w : world) (e : cart_entry) :
  e ∈ summary_items (get_cart stock_api user_id w).1 →
  ∃ sc sci, shopping_carts (db w) !! user_id = Some sc
    ∧ shopping_cart_items (db w) !! (c_id sc, entry_product_id e) = Some sci.
Proof.
  intros He.
  assert (entry_product_id e ∈ row_product_id <$> select_cart (db w) user_id)
    as (row & Hid & Hrow)%list_elem_of_fmap.
  { rewrite <- get_cart_product_ids. by apply list_elem_of_fmap_2. }
  unfold select_cart in Hrow. rewrite merge_sort_Permutation in Hrow.
  rewrite Hid. by apply joined_rows_line.
Qed.

End CartFacts.

(** ** Updating and removing a line *)

Section UpdateFacts.

Variable stock_api : nat -> UUID -> http_outcome.
Variable parse_uuid : string -> option UUID.

(** A product without a line in the cart of the user is not listed. *)
Lemma not_listed_without_line (api : nat -> UUID -> http_outcome)
    (user_id : string) (w : world) (sc : cart) (pid : UUID) :
  shopping_carts (db w) !! user_id = Some sc →
  shopping_cart_items (db w) !! (c_id sc, pid) = None →
  ∀ e, e ∈ summary_items (get_cart api user_id w).1 → entry_product_id e ≠ pid.
Proof.
  intros Hcart Hnone e (sc' & sci & Hcart' & Hline)%get_cart_listed Heq.
  congruence.
Qed.

(** C8. When the cart of the user has a line for the product,
    [update_cart_item(user_id, pid, 0)] succeeds and deletes exactly
    that line; the cart it returns and every later [get_cart] on the
    store it leaves do not list the product.  [remove_from_cart] is
    the same call. *)
Theorem update_to_zero_removes_line (user_id product_id : string)
    (pid : UUID) (now : Z) (w : world) (sc : cart) (sci : cart_item) :
  parse_uuid product_id = Some pid →
  shopping_carts (db w) !! user_id = Some sc →
  shopping_cart_items (db w) !! (c_id sc, pid) = Some sci →
  ∃ cart w',
    update_cart_item stock_api parse_uuid user_id product_id 0 now w
      = Some (Updated cart, w')
    ∧ remove_from_cart stock_api parse_uuid user_id product_id now w
      = update_cart_item stock_api parse_uuid user_id product_id 0 now w
    ∧ shopping_cart_items (db w')
      = delete (c_id sc, pid) (shopping_cart_items (db w))
    ∧ (∀ e, e ∈ summary_items cart → entry_product_id e ≠ pid)
    ∧ ∀ api w2, db w2 = db w' →
        ∀ e, e ∈ summary_items (get_cart api user_id w2).1 →
             entry_product_id e ≠ pid.
Proof.
  intros Hparse Hcart Hline.
  unfold remove_from_cart, update_cart_item. rewrite Hparse. cbn.
  unfold update_cart_item_store. rewrite Hcart. cbn.
  set (w1 := with_db w (delete_item (db w) (c_id sc) pid)).
  assert (shopping_carts (db w1) !! user_id = Some sc) as Hcart1 by done.
  assert (shopping_cart_items (db w1) !! (c_id sc, pid) = None) as Hgone
    by apply lookup_delete_eq.
  pose proof (get_cart_db stock_api user_id w1) as Hdb.
  pose proof (not_listed_without_line stock_api user_id w1 sc pid Hcart1 Hgone)
    as Hlist.
  destruct (get_cart stock_api user_id w1) as [cart w'].
  exists cart, w'. cbn in Hdb, Hlist.
  split; [done|]. split; [done|]. split; [by rewrite Hdb|].
  split; [done|].
  intros api w2 Hw2. apply (not_listed_without_line api user_id w2 sc pid).
  - by rewrite Hw2, Hdb.
  - by rewrite Hw2, Hdb.
Qed.

(** C9. When the user has a cart without a line for the product, the
    quantity is positive and the stock suffices, [update_cart_item]
    reports success although its UPDATE matches no row: the lines of
    the store are unchanged and the product is still not listed. *)
Theorem update_missing_line_reports_success (user_id product_id : string)
    (pid : UUID) (quantity available_stock : Z) (now : Z) (w : world)
    (sc : cart) :
  parse_uuid product_id = Some pid →
  shopping_carts (db w) !! user_id = Some sc →
  shopping_cart_items (db w) !! (c_id sc, pid) = None →
  0 < quantity →
  as_int (_get_stock_quantity stock_api pid w).1 = Some available_stock →
  quantity ≤ available_stock →
  ∃ cart w',
    update_cart_item stock_api parse_uuid user_id product_id quantity now w
      = Some (Updated cart, w')
    ∧ shopping_cart_items (db w') = shopping_cart_items (db w)
    ∧ shopping_cart_items (db w') !! (c_id sc, pid) = None
    ∧ (∀ e, e ∈ summary_items cart → entry_product_id e ≠ pid)
    ∧ ∀ api w2, db w2 = db w' →
        ∀ e, e ∈ summary_items (get_cart api user_id w2).1 →
             entry_product_id e ≠ pid.
Proof.
  intros Hparse Hcart Hnone Hpos Hstock Hle.
  unfold update_cart_item. rewrite Hparse.
  destruct (quantity <? 0) eqn:Hneg; [lia|].
  destruct (0 <? quantity) eqn:Hgt; [|lia].
  unfold _get_stock_quantity in *. cbn in Hstock. rewrite Hstock. cbn.
  destruct (available_stock <? quantity) eqn:Hlt; [lia|].
  unfold update_cart_item_store. cbn. rewrite Hcart. cbn.
  destruct (quantity =? 0) eqn:Hz; [lia|].
  set (w0 := mk_world (db w) (S (stock_requests w)) (rng_draws w)).
  set (w1 := with_db w0 (update_item (db w) (c_id sc) pid quantity now)).
  assert (shopping_cart_items (db w1) = shopping_cart_items (db w)) as Hsame.
  { cbn. apply map_eq. intros k. rewrite lookup_alter.
    case_decide as Hk; [|done]. subst k. by rewrite Hnone. }
  assert (shopping_carts (db w1) !! user_id = Some sc) as Hcart1 by done.
  assert (shopping_cart_items (db w1) !! (c_id sc, pid) = None) as Hnone1
    by (by rewrite Hsame).
  pose proof (get_cart_db stock_api user_id w1) as Hdb.
  pose proof (not_listed_without_line stock_api user_id w1 sc pid Hcart1 Hnone1)
    as Hlist.
  destruct (get_cart stock_api user_id w1) as [cart w'].
  exists cart, w'. cbn [fst snd] in Hdb, Hlist.
  split; [done|]. rewrite Hdb. split; [done|]. split; [done|].
  split; [done|].
  intros api w2 Hw2. apply (not_listed_without_line api user_id w2 sc pid).
  - by rewrite Hw2.
  - by rewrite Hw2.
Qed.

End UpdateFacts.

(** ** Adding to the cart *)

Lemma pinned_refl (d : database) : pinned d d.
Proof. intros key line H. by exists line. Qed.

Lemma pinned_trans (d1 d2 d3 : database) :
  pinned d1 d2 → pinned d2 d3 → pinned d1 d3.
Proof.
  intros H12 H23 key line H1.
  destruct (H12 key line H1) as (line2 & H2 & Hp2 & Ha2).
  destruct (H23 key line2 H2) as (line3 & H3 & Hp3 & Ha3).
  exists line3. split; [done|]. split; congruence.
Qed.

Lemma pinned_same_items (d d' : database) :
  shopping_cart_items d' = shopping_cart_items d → pinned d d'.
Proof. intros Heq key line H. exists line. by rewrite Heq. Qed.

Lemma ensure_cart_items (d : database) (user_id : string) (now : Z) :
  shopping_cart_items (ensure_cart d user_id now).2 = shopping_cart_items d
  ∧ products (ensure_cart d user_id now).2 = products d.
Proof. unfold ensure_cart. by destruct (shopping_carts d !! user_id). Qed.

Lemma upsert_item_pinned (d : database) (cart_id : Z) (product_id : UUID)
    (quantity : Z) (unit_price : Decimal) (now : Z) :
  pinned d (upsert_item d cart_id product_id quantity unit_price now).2.
Proof.
  intros key line Hline. unfold upsert_item.
  destruct (shopping_cart_items d !! (cart_id, product_id)) as [old|] eqn:Hold;
    cbn; rewrite lookup_insert; case_decide as Hkey; subst.
  - rewrite Hold in Hline. injection Hline as <-. by eexists.
  - by exists line.
  - congruence.
  - by exists line.
Qed.

Lemma update_item_pinned (d : database) (cart_id : Z) (product_id : UUID)
    (quantity : Z) (now : Z) :
  pinned d (update_item d cart_id product_id quantity now).
Proof.
  intros key line Hline. unfold update_item; cbn.
  rewrite lookup_alter. case_decide as Hkey; subst.
  - rewrite Hline. by eexists.
  - by exists line.
Qed.

Section AddFacts.

Variable SIMILARITY : string -> string -> Q.
Variable stock_api : nat -> UUID -> http_outcome.
Variable random : nat -> Q.

Local Abbreviation process_item := (process_item SIMILARITY stock_api random).
Local Abbreviation process_items := (process_items SIMILARITY stock_api random).
Local Abbreviation add_to_cart := (add_to_cart SIMILARITY stock_api random).
Local Abbreviation add_calls := (add_calls SIMILARITY stock_api random).
Local Abbreviation search := (_search_product SIMILARITY).

(** The name and the quantity the loop reads from an item, and the
    stock it fetches for a product. *)
Local Abbreviation name_of item := (strip (default "" (it_product_name item))).
Local Abbreviation quantity_of item := (default 1 (it_quantity item)).
Local Abbreviation stock_of product_id w :=
  (as_int (_get_stock_quantity stock_api product_id w).1).
Local Abbreviation line_of d cart_id product_id :=
  (shopping_cart_items d !! (cart_id, product_id)).

Lemma process_item_pinned (cart_id : Z) (vip : bool) (now : Z)
    (st st' : loop_state) (item : request_item) :
  process_item cart_id vip now st item = Some st' →
  pinned (db (ls_world st)) (db (ls_world st'))
  ∧ products (db (ls_world st')) = products (db (ls_world st))
  ∧ shopping_carts (db (ls_world st')) = shopping_carts (db (ls_world st)).
Proof.
  unfold process_item.
  destruct (String.eqb _ _);
    [intros [= <-]; split; [apply pinned_refl | done]|].
  destruct (_ <=? 0);
    [intros [= <-]; split; [apply pinned_refl | done]|].
  destruct (search _ _ _ _ _) as [product|];
    [|intros [= <-]; split; [apply pinned_refl | done]].
  cbn. destruct (as_int _) as [available_stock|]; [|discriminate]. cbn.
  destruct (available_stock <? _);
    [intros [= <-]; split; [apply pinned_refl | done]|].
  pose proof (upsert_item_pinned (db (ls_world st)) cart_id (f_product_id product)
    (quantity_of item)
    (_generate_price (f_category product) (random (rng_draws (ls_world st))))
    now) as Hup.
  destruct (upsert_item _ _ _ _ _ _) as [[final_quantity final_price] d3] eqn:Hd3.
  assert (products d3 = products (db (ls_world st))
          ∧ shopping_carts d3 = shopping_carts (db (ls_world st))) as [Hp Hc].
  { unfold upsert_item in Hd3.
    destruct (shopping_cart_items _ !! _); by injection Hd3 as _ _ <-. }
  destruct (available_stock <? final_quantity); intros [= <-]; cbn.
  - split; [|done]. eapply pinned_trans; [exact Hup|].
    apply update_item_pinned.
  - done.
Qed.

Lemma process_items_pinned (cart_id : Z) (vip : bool) (now : Z)
    (items : list request_item) (st st' : loop_state) :
  process_items cart_id vip now items st = Some st' →
  pinned (db (ls_world st)) (db (ls_world st')).
Proof.
  revert st. induction items as [|item rest IH]; intros st; cbn.
  - intros [= <-]. apply pinned_refl.
  - destruct (process_item cart_id vip now st item) as [st1|] eqn:H1;
      [|discriminate]. cbn. intros Hrest.
    eapply pinned_trans; [by eapply process_item_pinned | by apply IH].
Qed.

(** One call of [add_to_cart] keeps the unit price of every line that
    was in the store. *)
Lemma add_to_cart_pinned (user_id : string) (items : list request_item)
    (vip : bool) (now : Z) (w w' : world) (res : add_result) :
  add_to_cart user_id items vip now w = Some (res, w') →
  pinned (db w) (db w').
Proof.
  unfold add_to_cart.
  pose proof (ensure_cart_items (db w) user_id now) as [Hens _].
  destruct (ensure_cart (db w) user_id now) as [cart_id d1]. cbn in Hens.
  destruct (cart_id =? 0).
  - intros [= _ <-]. by apply pinned_same_items.
  - destruct (process_items _ _ _ _ _) as [st|] eqn:Hloop; [|discriminate].
    cbn. pose proof (get_cart_db stock_api user_id (ls_world st)) as Hdb.
    destruct (get_cart _ _ _) as [cart_summary w2]. intros [= _ <-].
    cbn in Hdb. rewrite Hdb.
    eapply pinned_trans; [|by eapply process_items_pinned].
    by apply pinned_same_items.
Qed.

(** [process_item] on an item that passes the validation and resolves
    to [product], when the stock source answers [available_stock]. *)
Lemma process_item_resolved (cart_id : Z) (vip : bool) (now : Z)
    (st : loop_state) (item : request_item) (product : found)
    (available_stock : Z) :
  name_of item ≠ "" →
  0 < quantity_of item →
  search (db (ls_world st)) (name_of item) vip (it_category item)
    (it_is_organic item) = Some product →
  stock_of (f_product_id product) (ls_world st) = Some available_stock →
  process_item cart_id vip now st item =
    let w := ls_world st in
    let product_id := f_product_id product in
    let quantity := quantity_of item in
    if available_stock <? quantity then
      Some (fail_item st (mk_world (db w) (S (stock_requests w)) (rng_draws w))
              (mk_failed_item (f_product_name product) (Some product_id)
                 (Some quantity) (Some available_stock)
                 ("Insufficient stock (only " ++ str_int available_stock
                    ++ " available)")%string))
    else
      let w2 := mk_world (db w) (S (stock_requests w)) (S (rng_draws w)) in
      let up :=
        upsert_item (db w) cart_id product_id quantity
          (_generate_price (f_category product) (random (rng_draws w))) now in
      if available_stock <? up.1.1 then
        Some (mk_loop_state
                (with_db w2 (update_item up.2 cart_id product_id available_stock now))
                (ls_added st ++
                   [mk_added_item product_id (f_product_name product) quantity
                      up.1.2 (up.1.2 * available_stock)])
                (ls_failed st ++
                   [mk_failed_item (f_product_name product) (Some product_id)
                      (Some quantity) (Some available_stock)
                      ("Reduced quantity to available stock ("
                         ++ str_int available_stock ++ ")")%string]))
      else
        Some (mk_loop_state (with_db w2 up.2)
                (ls_added st ++
                   [mk_added_item product_id (f_product_name product) quantity
                      up.1.2 (up.1.2 * up.1.1)])
                (ls_failed st)).
Proof.
  intros Hname Hpos Hsearch Hstock. unfold process_item.
  apply String.eqb_neq in Hname. rewrite Hname.
  destruct (quantity_of item <=? 0) eqn:Hq; [lia|].
  rewrite Hsearch. cbn in Hstock |- *. rewrite Hstock. cbn.
  destruct (available_stock <? quantity_of item); [done|].
  by destruct (upsert_item _ _ _ _ _ _) as [[final_quantity final_price] d3].
Qed.

(** What the upsert returns is what it stores. *)
Lemma upsert_item_line (d : database) (cart_id : Z) (product_id : UUID)
    (quantity : Z) (unit_price : Decimal) (now : Z) :
  let up := upsert_item d cart_id product_id quantity unit_price now in
  match line_of d cart_id product_id with
  | None =>
      up.1 = (quantity, unit_price)
      ∧ line_of up.2 cart_id product_id
        = Some (mk_cart_item quantity unit_price now now)
  | Some old =>
      up.1 = (ci_quantity old + quantity, ci_unit_price old)
      ∧ line_of up.2 cart_id product_id
        = Some (mk_cart_item (ci_quantity old + quantity) (ci_unit_price old)
                  (ci_added_at old) now)
  end.
Proof.
  unfold upsert_item.
  destruct (shopping_cart_items d !! (cart_id, product_id)) as [old|]; cbn;
    by rewrite lookup_insert_eq.
Qed.


(** C3. Price pinning: a line that is in the store with some unit price
    is still there with that unit price (and the time of its first add)
    after any run of [add_to_cart] calls, whoever calls and whatever is
    added; the calls change the quantity and the time of the update
    only. *)
Theorem price_pinned_across_adds (calls : list add_call) (w w' : world)
    (cart_id : Z) (product_id : UUID) (line : cart_item) :
  line_of (db w) cart_id product_id = Some line →
  add_calls calls w = Some w' →
  ∃ line', line_of (db w') cart_id product_id = Some line'
    ∧ ci_unit_price line' = ci_unit_price line
    ∧ ci_added_at line' = ci_added_at line.
Proof.
  intros Hline Hrun.
  assert (pinned (db w) (db w')) as Hpin; [|by apply Hpin].
  clear Hline. revert w Hrun. induction calls as [|c rest IH]; intros w; cbn.
  - intros [= <-]. apply pinned_refl.
  - destruct (add_to_cart _ _ _ _ w) as [[res w1]|] eqn:Hcall; [|discriminate].
    cbn. intros Hrest.
    eapply pinned_trans; [by eapply add_to_cart_pinned | by apply IH].
Qed.

(** C2, as the code has it.  The caller asks for 5 of "Tomatoe"; the
    catalog has a product named "Tomato" that the caller may see, whose
    similarity to "Tomatoe" exceeds 0.3 and that of every other product
    the caller may see; the stock source answers 10; the draw of the
    random source lies in [0, 1); the cart has no line for the product.
    Then the product is found, the call succeeds with that one item in
    [added_items] at quantity 5, a line with quantity 5 is created, and
    its unit price lies between 2.00 and 10.00: the search labels every
    product 'Unknown', so the price is drawn from the default range. *)
Theorem tomatoe_scenario (user_id : string) (vip : bool) (now : Z)
    (w : world) (p : product) (category : option string)
    (is_organic : option bool) :
  let item := mk_request_item (Some "Tomatoe") (Some 5) category is_organic in
  let cart_id := (ensure_cart (db w) user_id now).1 in
  prod_name p = "Tomato" →
  p ∈ products (db w) →
  prod_is_vip p = false ∨ vip = true →
  (3 # 10 < SIMILARITY "Tomato" "Tomatoe")%Q →
  (∀ q, q ∈ products (db w) → q ≠ p → prod_is_vip q = false ∨ vip = true →
        (SIMILARITY (prod_name q) "Tomatoe" < SIMILARITY "Tomato" "Tomatoe")%Q) →
  stock_of (prod_id p) w = Some 10 →
  (0 <= random (rng_draws w))%Q ∧ (random (rng_draws w) < 1)%Q →
  cart_id ≠ 0 →
  line_of (db w) cart_id (prod_id p) = None →
  ∃ price cart_total total_items w',
    search (db w) "Tomatoe" vip category is_organic
      = Some (mk_found (prod_id p) "Tomato" (Some "Unknown") false
                (SIMILARITY "Tomato" "Tomatoe"))
    ∧ add_to_cart user_id [item] vip now w
      = Some (Added true [mk_added_item (prod_id p) "Tomato" 5 price (price * 5)]
                [] cart_total total_items, w')
    ∧ price = _generate_price (Some "Unknown") (random (rng_draws w))
    ∧ 200 ≤ price ≤ 1000
    ∧ line_of (db w') cart_id (prod_id p) = Some (mk_cart_item 5 price now now).
Proof.
  intros item cart_id Hname Hp Hvis Hsim Hbest Hstock [Hu0 Hu1] Hcart Hnone.
  rewrite <- Hname in Hsim, Hbest.
  pose proof (search_strict_best SIMILARITY (db w) "Tomatoe" vip category
    is_organic p Hp Hvis Hsim Hbest) as Hsearch.
  unfold search_select in Hsearch. rewrite Hname in Hsearch.
  unfold add_to_cart. subst cart_id.
  pose proof (ensure_cart_items (db w) user_id now) as [Hitems Hprods].
  destruct (ensure_cart (db w) user_id now) as [cart_id d1]. cbn [fst snd] in *.
  destruct (cart_id =? 0) eqn:Hz; [lia|]. clear Hz.
  cbn [process_items mbind option_bind].
  rewrite (process_item_resolved cart_id vip now _ item
    (mk_found (prod_id p) "Tomato" (Some "Unknown") false
       (SIMILARITY "Tomato" "Tomatoe")) 10); cycle 1.
  { done. }
  { cbn. lia. }
  { unfold _search_product in *. cbn [db ls_world with_db].
    by rewrite Hprods. }
  { exact Hstock. }
  cbn -[upsert_item get_cart _generate_price Z.mul str_int].
  pose proof (upsert_item_line d1 cart_id (prod_id p) 5
    (_generate_price (Some "Unknown") (random (rng_draws w))) now) as Hup.
  cbn zeta in Hup. rewrite Hitems, Hnone in Hup.
  destruct (upsert_item _ _ _ _ _ _) as [[final_quantity final_price] d3].
  cbn [fst snd] in *. destruct Hup as [[= -> ->] Hline].
  cbn -[get_cart _generate_price Z.mul].
  match goal with |- context [get_cart stock_api user_id ?w2] =>
    pose proof (get_cart_db stock_api user_id w2) as Hdb;
    destruct (get_cart stock_api user_id w2) as [cart_summary w']
  end.
  cbn in Hdb. eexists _, _, _, _. split; [exact Hsearch|].
  split; [reflexivity|]. split; [reflexivity|].
  split; [by apply generate_price_unknown_bounds|].
  by rewrite Hdb.
Qed.

End AddFacts.

(** * Runs of the example *)

Section Runs.

Import Example.

Local Abbreviation sim := Trgm.similarity.

(** The product the search returns for "Tomatoe" in the example. *)
Local Abbreviation found_tomato :=
  (mk_found 7%N "Tomato" (Some "Unknown") false (sim "Tomato" "Tomatoe")).


(** C2 fails on the code.  With no cart yet, ten tomatoes in stock and
    the draw 15/16, the call for 5 of "Tomatoe" finds "Tomato" and adds
    it at 9.50 a piece, which is outside [2.00, 8.00). *)
Lemma tomatoe_price_outside_vegetables_range :
  ∃ a,
    fst <$> add_to_cart sim stock_10 draw "alice" [tomatoe (Some 5)] false
              100 fresh
    = Some (Added true [a] [] 4750 5)
    ∧ added_product_name a = "Tomato"
    ∧ added_quantity a = 5
    ∧ added_unit_price a = 950
    ∧ ¬ (200 ≤ added_unit_price a < 800).
Proof.
  exists (mk_added_item 7%N "Tomato" 5 950 4750).
  split; [vm_compute; reflexivity|]. cbn. repeat split; lia.
Qed.


Lemma tomatoe_scenario_witness :
  ∃ price cart_total total_items w',
    add_to_cart sim stock_10 draw "alice" [tomatoe (Some 5)] false 100 fresh
    = Some (Added true [mk_added_item 7%N "Tomato" 5 price (price * 5)] []
              cart_total total_items, w')
    ∧ 200 ≤ price ≤ 1000.
Proof.
  destruct (tomatoe_scenario sim stock_10 draw "alice" false 100 fresh tomato
              None None)
    as (price & cart_total & total_items & w' & _ & Hrun & _ & Hprice & _).
  - reflexivity.
  - by left.
  - by left.
  - vm_compute. reflexivity.
  - intros q [->|Hq]%elem_of_cons Hne [Hvis|Hvip]; try done.
    apply list_elem_of_singleton in Hq as ->. discriminate.
  - vm_compute. reflexivity.
  - split; vm_compute; [discriminate | reflexivity].
  - vm_compute. discriminate.
  - vm_compute. reflexivity.
  - by exists price, cart_total, total_items, w'.
Defined.

Lemma price_pinned_across_adds_witness :
  ∃ w' line',
    add_calls sim stock_10 draw
      [mk_add_call "alice" [tomatoe (Some 3)] false 200;
       mk_add_call "alice" [tomatoe (Some 9); tomatoe None] false 300] stocked
    = Some w'
    ∧ shopping_cart_items (db w') !! (1, 7%N) = Some line'
    ∧ ci_unit_price line' = 950.
Proof.
  destruct (add_calls sim stock_10 draw
              [mk_add_call "alice" [tomatoe (Some 3)] false 200;
               mk_add_call "alice" [tomatoe (Some 9); tomatoe None] false 300]
              stocked) as [w'|] eqn:Hrun.
  - destruct (price_pinned_across_adds sim stock_10 draw _ stocked w' 1 7%N
                tomato_line eq_refl Hrun) as (line' & Hline & Hprice & _).
    exists w', line'. split; [reflexivity|]. split; [exact Hline | exact Hprice].
  - vm_compute in Hrun. discriminate.
Defined.

Lemma update_to_zero_removes_line_witness :
  ∃ cart w',
    update_cart_item stock_10 parse "alice" tomato_id 0 200 stocked
    = Some (Updated cart, w')
    ∧ shopping_cart_items (db w') !! (1, 7%N) = None
    ∧ ∀ e, e ∈ summary_items cart → entry_product_id e ≠ 7%N.
Proof.
  destruct (update_to_zero_removes_line stock_10 parse "alice" tomato_id 7%N 200
              stocked alice_cart tomato_line)
    as (cart & w' & Hrun & _ & Hitems & Hlist & _).
  - vm_compute. reflexivity.
  - vm_compute. reflexivity.
  - vm_compute. reflexivity.
  - exists cart, w'. split; [done|]. split; [|done].
    rewrite Hitems. apply lookup_delete_eq.
Defined.

Lemma update_missing_line_reports_success_witness :
  ∃ cart w',
    update_cart_item stock_10 parse "alice" tomato_id 4 200 emptied
    = Some (Updated cart, w')
    ∧ shopping_cart_items (db w') = shopping_cart_items (db emptied)
    ∧ ∀ e, e ∈ summary_items cart → entry_product_id e ≠ 7%N.
Proof.
  destruct (update_missing_line_reports_success stock_10 parse "alice" tomato_id
              7%N 4 10 200 emptied alice_cart)
    as (cart & w' & Hrun & Hitems & _ & Hlist & _).
  - vm_compute. reflexivity.
  - vm_compute. reflexivity.
  - vm_compute. reflexivity.
  - lia.
  - vm_compute. reflexivity.
  - lia.
  - by exists cart, w'.
Defined.

End Runs.


(** * Further properties of the service *)

(** ** [get_cart] *)

Section GetCart.

Variable stock_api : nat -> UUID -> http_outcome.

Lemma get_cart_loop_closed (rows : list cart_row) (items : list cart_entry)
    (total_items : Z) (total_price : Decimal) (w : world) :
  fold_left (get_cart_step stock_api) rows (items, total_items, total_price, w)
  = (items ++ entries_from stock_api (stock_requests w) rows,
     total_items + sum_of row_quantity rows,
     total_price + sum_of row_total_price rows,
     mk_world (db w) (stock_requests w + length rows) (rng_draws w)).
Proof.
  revert items total_items total_price w.
  induction rows as [|row rows IH]; intros items total_items total_price w.
  - cbn. destruct w as [d n k]. cbn.
    by rewrite app_nil_r, !Z.add_0_r, Nat.add_0_r.
  - cbn [fold_left]. unfold get_cart_step at 2. cbn. rewrite IH. cbn.
    rewrite <- app_assoc, <- !Z.add_assoc. repeat f_equal. lia.
Qed.

(** [get_cart] in closed form. *)
Lemma get_cart_closed (user_id : string) (w : world) :
  get_cart stock_api user_id w
  = (mk_cart_summary
       (entries_from stock_api (stock_requests w) (select_cart (db w) user_id))
       (sum_of row_quantity (select_cart (db w) user_id))
       (sum_of row_total_price (select_cart (db w) user_id))
       "EUR",
     mk_world (db w)
       (stock_requests w + length (select_cart (db w) user_id)) (rng_draws w)).
Proof. unfold get_cart. by rewrite get_cart_loop_closed. Qed.

Lemma entries_from_lookup (n : nat) (rows : list cart_row) (i : nat) :
  entries_from stock_api n rows !! i
  = (λ row, entry_of_row row
              (_get_stock_quantity_on (stock_api (n + i)%nat (row_product_id row))))
    <$> rows !! i.
Proof.
  revert n i. induction rows as [|row rows IH]; intros n i; [done|].
  destruct i as [|i]; cbn.
  - by rewrite Nat.add_0_r.
  - rewrite IH. by replace (S n + i)%nat with (n + S i)%nat by lia.
Qed.

Lemma entries_from_length (n : nat) (rows : list cart_row) :
  length (entries_from stock_api n rows) = length rows.
Proof. revert n. induction rows as [|row rows IH]; intros n; cbn; by rewrite ?IH. Qed.

Lemma entries_from_elem (n : nat) (rows : list cart_row) (e : cart_entry) :
  e ∈ entries_from stock_api n rows →
  ∃ row stock, row ∈ rows ∧ e = entry_of_row row stock.
Proof.
  intros [i Hi]%list_elem_of_lookup. rewrite entries_from_lookup in Hi.
  destruct (rows !! i) as [row|] eqn:Hrow; [|done]. injection Hi as <-.
  eexists row, _. split; [|done]. by eapply list_elem_of_lookup_2.
Qed.

Lemma entries_from_row (n : nat) (rows : list cart_row) (row : cart_row) :
  row ∈ rows → ∃ stock, entry_of_row row stock ∈ entries_from stock_api n rows.
Proof.
  intros [i Hi]%list_elem_of_lookup. eexists.
  apply list_elem_of_lookup. exists i. rewrite entries_from_lookup, Hi. done.
Qed.

Lemma entries_from_sum (f : cart_entry → Z) (g : cart_row → Z) (n : nat)
    (rows : list cart_row) :
  (∀ row stock, f (entry_of_row row stock) = g row) →
  sum_of f (entries_from stock_api n rows) = sum_of g rows.
Proof.
  intros Hfg. unfold sum_of. revert n.
  induction rows as [|row rows IH]; intros n; [done|].
  cbn. by rewrite Hfg, IH.
Qed.

(** The rows of the join: one for every line of the cart of the user and
    every catalog row of its product. *)
Lemma joined_rows_spec (d : database) (user_id : string) (row : cart_row) :
  row ∈ joined_rows d user_id ↔
  ∃ sc sci p, shopping_carts d !! user_id = Some sc
    ∧ shopping_cart_items d !! (c_id sc, prod_id p) = Some sci
    ∧ p ∈ products d
    ∧ row = row_of_line p sci.
Proof.
  unfold joined_rows.
  destruct (shopping_carts d !! user_id) as [sc|]; cycle 1.
  { split; [by inversion 1 | by intros (? & ? & ? & ? & _)]. }
  rewrite list_elem_of_In, in_flat_map. split.
  - intros ([[cart_id product_id] sci] & Hin & Hrow).
    apply list_elem_of_In, elem_of_map_to_list in Hin.
    case_bool_decide as Hcart; [|by destruct Hrow]. subst cart_id.
    apply in_map_iff in Hrow as (p & <- & [Hp Hid%bool_decide_eq_true]%filter_In).
    subst product_id. exists sc, sci, p.
    repeat split; [done|by apply list_elem_of_In].
  - intros (sc' & sci & p & [= <-] & Hline & Hp & ->).
    exists ((c_id sc, prod_id p), sci). split.
    + by apply list_elem_of_In, elem_of_map_to_list.
    + rewrite bool_decide_eq_true_2 by done. apply in_map_iff. exists p.
      split; [done|]. apply filter_In. split; [by apply list_elem_of_In|].
      by apply bool_decide_eq_true.
Qed.

Lemma select_cart_elem (d : database) (user_id : string) (row : cart_row) :
  row ∈ select_cart d user_id ↔ row ∈ joined_rows d user_id.
Proof. unfold select_cart. by rewrite merge_sort_Permutation. Qed.

#[local] Instance added_at_desc_total : Total added_at_desc.
Proof. intros r1 r2. unfold added_at_desc. lia. Qed.

#[local] Instance added_at_desc_trans : Transitive added_at_desc.
Proof. intros r1 r2 r3. unfold added_at_desc. lia. Qed.

Lemma entries_from_sorted (n : nat) (rows : list cart_row) :
  StronglySorted added_at_desc rows →
  StronglySorted newest_first (entries_from stock_api n rows).
Proof.
  intros Hs. revert n. induction Hs as [|row rows Hs IH Hall]; intros n; cbn.
  - constructor.
  - constructor; [apply IH|].
    apply Forall_forall. intros e (row' & stock & Hrow' & ->)%entries_from_elem.
    rewrite Forall_forall in Hall. apply (Hall row' Hrow').
Qed.

Lemma select_cart_nil (d : database) (user_id : string) :
  (∀ sc product_id, shopping_carts d !! user_id = Some sc →
     shopping_cart_items d !! (c_id sc, product_id) = None) →
  select_cart d user_id = [].
Proof.
  intros Hempty.
  assert (joined_rows d user_id = []) as Hnil.
  { destruct (joined_rows d user_id) as [|row rows] eqn:Hrows; [done|].
    assert (row ∈ joined_rows d user_id) as Hin by (rewrite Hrows; left).
    apply joined_rows_spec in Hin as (sc & sci & p & Hcart & Hline & _).
    by rewrite (Hempty sc (prod_id p) Hcart) in Hline. }
  unfold select_cart. by rewrite Hnil.
Qed.

(** A line of the cart of the user whose product is in the catalog is
    listed. *)
Lemma get_cart_complete (user_id : string) (w : world) (sc : cart)
    (sci : cart_item) (p : product) :
  shopping_carts (db w) !! user_id = Some sc →
  shopping_cart_items (db w) !! (c_id sc, prod_id p) = Some sci →
  p ∈ products (db w) →
  ∃ e, e ∈ summary_items (get_cart stock_api user_id w).1
    ∧ entry_product_id e = prod_id p
    ∧ entry_product_name e = prod_name p
    ∧ entry_quantity e = ci_quantity sci
    ∧ entry_unit_price e = ci_unit_price sci.
Proof.
  intros Hcart Hline Hp. rewrite get_cart_closed. cbn.
  assert (row_of_line p sci ∈ select_cart (db w) user_id) as Hrow.
  { apply select_cart_elem, joined_rows_spec. by exists sc, sci, p. }
  destruct (entries_from_row (stock_requests w) _ _ Hrow) as [stock He].
  by eexists.
Qed.

Lemma get_cart_world (user_id : string) (w : world) :
  db (get_cart stock_api user_id w).2 = db w
  ∧ rng_draws (get_cart stock_api user_id w).2 = rng_draws w.
Proof. by rewrite get_cart_closed. Qed.

(** X1. The totals of [get_cart] are exact sums over the items it lists:
    [total_price] is the sum of quantity times unit price, [total_items]
    the sum of the quantities, and the total of every item is its
    quantity times its unit price. *)
Theorem get_cart_totals (user_id : string) (w : world) :
  let cart := (get_cart stock_api user_id w).1 in
  summary_total_price cart
  = sum_of (λ e, entry_quantity e * entry_unit_price e) (summary_items cart)
  ∧ summary_total_items cart = sum_of entry_quantity (summary_items cart)
  ∧ ∀ e, e ∈ summary_items cart →
         entry_total_price e = entry_quantity e * entry_unit_price e.
Proof.
  rewrite get_cart_closed. cbn.
  assert (∀ row, row ∈ select_cart (db w) user_id →
            row_total_price row = row_quantity row * row_unit_price row) as Hrows.
  { intros row (sc & sci & p & _ & _ & _ & ->)%select_cart_elem%joined_rows_spec.
    done. }
  split; [|split].
  - revert Hrows. generalize (stock_requests w).
    induction (select_cart (db w) user_id) as [|row rows IH]; intros n Hrows;
      [done|].
    cbn. rewrite (Hrows row) by left. f_equal. apply IH.
    intros row' Hrow'. apply Hrows. by right.
  - symmetry. by apply entries_from_sum.
  - intros e (row & stock & Hrow & ->)%entries_from_elem. cbn. by apply Hrows.
Qed.

(** X2. [get_cart] lists what the store holds at the time of the read:
    every item is a line of the cart of the user, with the quantity, unit
    price and times of that line and the name of a catalog row of its
    product; and every line of that cart whose product is in the catalog
    is listed.  A line whose product is not in the catalog is not
    listed. *)
Theorem get_cart_lists_stored_lines (user_id : string) (w : world) :
  let cart := (get_cart stock_api user_id w).1 in
  (∀ e, e ∈ summary_items cart →
     ∃ sc sci p,
       shopping_carts (db w) !! user_id = Some sc
       ∧ shopping_cart_items (db w) !! (c_id sc, entry_product_id e) = Some sci
       ∧ p ∈ products (db w)
       ∧ prod_id p = entry_product_id e
       ∧ entry_product_name e = prod_name p
       ∧ entry_quantity e = ci_quantity sci
       ∧ entry_unit_price e = ci_unit_price sci
       ∧ entry_added_at e = ci_added_at sci
       ∧ entry_updated_at e = ci_updated_at sci)
  ∧ (∀ sc sci p,
       shopping_carts (db w) !! user_id = Some sc →
       shopping_cart_items (db w) !! (c_id sc, prod_id p) = Some sci →
       p ∈ products (db w) →
       ∃ e, e ∈ summary_items cart
         ∧ entry_product_id e = prod_id p
         ∧ entry_product_name e = prod_name p
         ∧ entry_quantity e = ci_quantity sci
         ∧ entry_unit_price e = ci_unit_price sci).
Proof.
  rewrite get_cart_closed. cbn. split.
  - intros e (row & stock & Hrow & ->)%entries_from_elem.
    apply select_cart_elem, joined_rows_spec in Hrow
      as (sc & sci & p & Hcart & Hline & Hp & ->).
    by exists sc, sci, p.
  - intros sc sci p Hcart Hline Hp.
    assert (row_of_line p sci ∈ select_cart (db w) user_id) as Hrow.
    { apply select_cart_elem, joined_rows_spec. by exists sc, sci, p. }
    destruct (entries_from_row (stock_requests w) _ _ Hrow) as [stock He].
    by eexists.
Qed.

(** X3. [get_cart] only reads: it leaves the store and the random source
    as they were.  It sends one stock request per listed item, in the
    order of the list, and the available stock of an item is the answer
    to the request made for it. *)
Theorem get_cart_reads_only (user_id : string) (w : world) :
  let r := get_cart stock_api user_id w in
  db r.2 = db w
  ∧ rng_draws r.2 = rng_draws w
  ∧ stock_requests r.2 = (stock_requests w + length (summary_items r.1))%nat
  ∧ ∀ i e, summary_items r.1 !! i = Some e →
      entry_available_stock e
      = _get_stock_quantity_on
          (stock_api (stock_requests w + i)%nat (entry_product_id e)).
Proof.
  rewrite get_cart_closed. cbn. rewrite entries_from_length.
  repeat split. intros i e He. rewrite entries_from_lookup in He.
  destruct (select_cart (db w) user_id !! i); [|done]. by injection He as <-.
Qed.

(** X4. The items of [get_cart] come most recently added first: every
    item was added no earlier than every item after it. *)
Theorem get_cart_newest_first (user_id : string) (w : world) :
  StronglySorted newest_first (summary_items (get_cart stock_api user_id w).1).
Proof.
  rewrite get_cart_closed. cbn. apply entries_from_sorted.
  unfold select_cart. apply (StronglySorted_merge_sort _).
Qed.

(** X5. For a user without a cart, or with a cart that has no line,
    [get_cart] returns the empty cart, with totals 0 and currency EUR,
    and sends no stock request. *)
Theorem get_cart_of_empty_cart (user_id : string) (w : world) :
  (∀ sc product_id, shopping_carts (db w) !! user_id = Some sc →
     shopping_cart_items (db w) !! (c_id sc, product_id) = None) →
  get_cart stock_api user_id w = (mk_cart_summary [] 0 0 "EUR", w).
Proof.
  intros Hempty. rewrite get_cart_closed, select_cart_nil by done.
  cbn. destruct w as [d n k]. cbn. by rewrite Nat.add_0_r.
Qed.

End GetCart.

(** ** [clear_cart] *)

Lemma delete_cart_items_lookup (d : database) (user_id : string)
    (cart_id : Z) (product_id : UUID) :
  shopping_cart_items (delete_cart_items d user_id) !! (cart_id, product_id)
  = if decide (cart_id ∈ cart_ids_of d user_id) then None
    else shopping_cart_items d !! (cart_id, product_id).
Proof.
  unfold delete_cart_items. cbn. case_decide as Hin.
  - apply map_lookup_filter_None. right. intros line _ Hnot. by apply Hnot.
  - destruct (shopping_cart_items d !! (cart_id, product_id)) as [line|] eqn:Hl.
    + by apply map_lookup_filter_Some.
    + apply map_lookup_filter_None. by left.
Qed.

(** X6. [clear_cart] always reports success.  After it the cart of the
    user has no line and [get_cart] returns the empty cart; the cart row
    itself and the catalog are left as they were. *)
Theorem clear_cart_empties_cart (stock_api : nat -> UUID -> http_outcome)
    (user_id : string) (w : world) :
  let r := clear_cart user_id w in
  clear_success r.1 = true
  ∧ shopping_carts (db r.2) = shopping_carts (db w)
  ∧ products (db r.2) = products (db w)
  ∧ (∀ sc product_id, shopping_carts (db w) !! user_id = Some sc →
       shopping_cart_items (db r.2) !! (c_id sc, product_id) = None)
  ∧ get_cart stock_api user_id r.2 = (mk_cart_summary [] 0 0 "EUR", r.2).
Proof.
  assert (∀ sc product_id, shopping_carts (db w) !! user_id = Some sc →
            shopping_cart_items (delete_cart_items (db w) user_id)
              !! (c_id sc, product_id) = None) as Hgone.
  { intros sc product_id Hcart. rewrite delete_cart_items_lookup.
    rewrite decide_True; [done|]. unfold cart_ids_of. rewrite Hcart. by left. }
  cbn. repeat split; [done|].
  rewrite get_cart_closed, select_cart_nil by done.
  cbn. by rewrite Nat.add_0_r.
Qed.

(** X7. [clear_cart] touches the lines of the cart of the user only: the
    lines of every other cart stay as they are, for a user without a cart
    the store does not change at all, and clearing twice is clearing
    once. *)
Theorem clear_cart_frame (user_id : string) (w : world) :
  (∀ sc cart_id product_id,
     shopping_carts (db w) !! user_id = Some sc → cart_id ≠ c_id sc →
     shopping_cart_items (db (clear_cart user_id w).2) !! (cart_id, product_id)
     = shopping_cart_items (db w) !! (cart_id, product_id))
  ∧ (shopping_carts (db w) !! user_id = None → (clear_cart user_id w).2 = w)
  ∧ clear_cart user_id (clear_cart user_id w).2 = clear_cart user_id w.
Proof.
  split; [|split].
  - intros sc cart_id product_id Hcart Hne.
    unfold clear_cart, with_db. cbn [snd db].
    rewrite delete_cart_items_lookup, decide_False; [done|].
    unfold cart_ids_of. rewrite Hcart. by intros ->%list_elem_of_singleton.
  - intros Hnone. destruct w as [[prods carts items seq] n k].
    unfold clear_cart, with_db, delete_cart_items, with_items, cart_ids_of.
    cbn in *. rewrite Hnone. do 2 f_equal.
    apply map_filter_id. intros key line _. by inversion 1.
  - unfold clear_cart, with_db. cbn. do 2 f_equal.
    destruct (db w) as [prods carts items seq].
    unfold delete_cart_items, with_items, cart_ids_of. cbn. f_equal.
    apply map_filter_id. intros key line Hl.
    by apply map_lookup_filter_Some in Hl as [_ Hl].
Qed.

(** ** [update_cart_item] and [remove_from_cart] *)

Section UpdateMore.

Variable stock_api : nat -> UUID -> http_outcome.
Variable parse_uuid : string -> option UUID.

Local Abbreviation update_cart_item := (update_cart_item stock_api parse_uuid).
Local Abbreviation remove_from_cart := (remove_from_cart stock_api parse_uuid).
Local Abbreviation store_step := (update_cart_item_store stock_api).

(** The statement [update_cart_item] runs on the lines. *)
Local Abbreviation written d cart_id product_id quantity now :=
  (if quantity =? 0 then delete_item d cart_id product_id
   else update_item d cart_id product_id quantity now).

Lemma update_cart_item_store_spec (user_id : string) (product_uuid : UUID)
    (quantity now : Z) (w : world) :
  match shopping_carts (db w) !! user_id with
  | None =>
      store_step user_id product_uuid quantity now w
      = (UpdateError "Cart not found" None, w)
  | Some sc =>
      ∃ w',
        store_step user_id product_uuid quantity now w
        = (Updated
             (get_cart stock_api user_id
                (with_db w (written (db w) (c_id sc) product_uuid quantity now))).1,
           w')
        ∧ db w' = written (db w) (c_id sc) product_uuid quantity now
        ∧ rng_draws w' = rng_draws w
  end.
Proof.
  unfold update_cart_item_store.
  destruct (shopping_carts (db w) !! user_id) as [sc|]; [|done]. cbn zeta.
  pose proof (get_cart_world stock_api user_id
    (with_db w (written (db w) (c_id sc) product_uuid quantity now))) as [Hdb Hk].
  destruct (get_cart _ _ _) as [cart w']. by exists w'.
Qed.

(** What a returning call did to the world: nothing to the store, or the
    one statement on the line of the product in the cart of the user. *)
Lemma update_cart_item_inv (user_id product_id : string) (quantity now : Z)
    (w w' : world) (res : update_result) :
  update_cart_item user_id product_id quantity now w = Some (res, w') →
  rng_draws w' = rng_draws w
  ∧ (db w' = db w
     ∨ ∃ pid sc, parse_uuid product_id = Some pid
         ∧ shopping_carts (db w) !! user_id = Some sc
         ∧ 0 ≤ quantity
         ∧ db w' = written (db w) (c_id sc) pid quantity now).
Proof.
  unfold update_cart_item.
  destruct (parse_uuid product_id) as [pid|] eqn:Hparse;
    [|intros [= _ <-]; by split; [|left]].
  destruct (quantity <? 0) eqn:Hneg; [intros [= _ <-]; by split; [|left]|].
  assert (∀ w1, db w1 = db w → rng_draws w1 = rng_draws w →
            store_step user_id pid quantity now w1 = (res, w') →
            rng_draws w' = rng_draws w
            ∧ (db w' = db w
               ∨ ∃ pid' sc, Some pid = Some pid'
                   ∧ shopping_carts (db w) !! user_id = Some sc
                   ∧ 0 ≤ quantity
                   ∧ db w' = written (db w) (c_id sc) pid' quantity now)) as Hstore.
  { intros w1 Hdb Hk Hrun.
    pose proof (update_cart_item_store_spec user_id pid quantity now w1) as Hs.
    rewrite Hdb in Hs.
    destruct (shopping_carts (db w) !! user_id) as [sc|] eqn:Hcart.
    - destruct Hs as (w2 & Hs & Hdb2 & Hk2). rewrite Hs in Hrun.
      injection Hrun as _ <-. split; [congruence|]. right.
      exists pid, sc. split; [done|]. split; [done|]. split; [lia|done].
    - rewrite Hs in Hrun. injection Hrun as _ <-. split; [done|by left]. }
  destruct (0 <? quantity).
  - destruct (_get_stock_quantity stock_api pid w) as [stock w1] eqn:Hfetch.
    assert (db w1 = db w ∧ rng_draws w1 = rng_draws w) as [Hd Hk].
    { unfold _get_stock_quantity in Hfetch. by injection Hfetch as _ <-. }
    destruct (as_int stock) as [available_stock|]; [|discriminate].
    cbn [mbind option_bind].
    destruct (available_stock <? quantity).
    + intros [= _ <-]. split; [done|by left].
    + intros [= Hrun]. by apply (Hstore w1).
  - intros [= Hrun]. by apply (Hstore w).
Qed.

(** X8. A malformed product id, and after it a negative quantity, is
    rejected before anything else happens: the call returns the error and
    the world is untouched - no stock request, no access to the store.
    The product id is checked first. *)
Theorem update_rejects_before_any_effect (user_id product_id : string)
    (quantity now : Z) (w : world) :
  parse_uuid product_id = None ∨ quantity < 0 →
  ∃ error,
    update_cart_item user_id product_id quantity now w
    = Some (UpdateError error None, w)
    ∧ (parse_uuid product_id = None → error = "Invalid product ID")
    ∧ (parse_uuid product_id ≠ None → error = "Quantity cannot be negative").
Proof.
  intros Hbad. unfold update_cart_item.
  destruct (parse_uuid product_id) as [pid|].
  - destruct Hbad as [|Hneg]; [done|].
    destruct (quantity <? 0) eqn:Hq; [|lia]. by eexists.
  - by eexists.
Qed.

(** X9. When the stock source answers less than a positive quantity,
    [update_cart_item] fails with the insufficient-stock error, which
    carries the available count, and leaves the store as it was; the one
    stock request has been sent.  The stock is checked before the cart
    is looked up, so this is also the answer for a user without a cart. *)
Theorem update_insufficient_stock (user_id product_id : string) (pid : UUID)
    (quantity available_stock now : Z) (w : world) :
  parse_uuid product_id = Some pid →
  0 < quantity →
  as_int (_get_stock_quantity stock_api pid w).1 = Some available_stock →
  available_stock < quantity →
  ∃ w',
    update_cart_item user_id product_id quantity now w
    = Some (UpdateError
              ("Insufficient stock (only " ++ str_int available_stock
                 ++ " available)")%string
              (Some available_stock), w')
    ∧ db w' = db w
    ∧ stock_requests w' = S (stock_requests w).
Proof.
  intros Hparse Hpos Hstock Hlt. unfold update_cart_item. rewrite Hparse.
  destruct (quantity <? 0) eqn:Hneg; [lia|].
  destruct (0 <? quantity) eqn:Hgt; [|lia].
  cbn in Hstock |- *. rewrite Hstock. cbn.
  destruct (available_stock <? quantity) eqn:Hcmp; [|lia]. by eexists.
Qed.

(** X10. Updating a line that exists, to a positive quantity the stock
    covers, sets the quantity of that line and the time of its update and
    keeps its unit price and the time it was added; all other lines are
    unchanged, and the cart returned lists the product, when the catalog
    has it, with the new quantity and the old price. *)
Theorem update_sets_quantity (user_id product_id : string) (pid : UUID)
    (quantity available_stock now : Z) (w : world) (sc : cart)
    (old : cart_item) :
  parse_uuid product_id = Some pid →
  shopping_carts (db w) !! user_id = Some sc →
  shopping_cart_items (db w) !! (c_id sc, pid) = Some old →
  0 < quantity ≤ available_stock →
  as_int (_get_stock_quantity stock_api pid w).1 = Some available_stock →
  ∃ cart w',
    update_cart_item user_id product_id quantity now w = Some (Updated cart, w')
    ∧ shopping_cart_items (db w') !! (c_id sc, pid)
      = Some (mk_cart_item quantity (ci_unit_price old) (ci_added_at old) now)
    ∧ (∀ key, key ≠ (c_id sc, pid) →
         shopping_cart_items (db w') !! key = shopping_cart_items (db w) !! key)
    ∧ (∀ p, p ∈ products (db w) → prod_id p = pid →
         ∃ e, e ∈ summary_items cart
           ∧ entry_product_id e = pid
           ∧ entry_quantity e = quantity
           ∧ entry_unit_price e = ci_unit_price old).
Proof.
  intros Hparse Hcart Hold [Hpos Hle] Hstock.
  unfold update_cart_item. rewrite Hparse.
  destruct (quantity <? 0) eqn:Hneg; [lia|].
  destruct (0 <? quantity) eqn:Hgt; [|lia].
  cbn in Hstock |- *. rewrite Hstock. cbn.
  destruct (available_stock <? quantity) eqn:Hcmp; [lia|].
  set (w1 := mk_world (db w) (S (stock_requests w)) (rng_draws w)).
  pose proof (update_cart_item_store_spec user_id pid quantity now w1) as Hs.
  cbn [db w1] in Hs. rewrite Hcart in Hs.
  destruct Hs as (w' & -> & Hdb & _).
  destruct (quantity =? 0) eqn:Hz; [lia|].
  assert (shopping_cart_items (update_item (db w) (c_id sc) pid quantity now)
            !! (c_id sc, pid)
          = Some (mk_cart_item quantity (ci_unit_price old) (ci_added_at old) now))
    as Hline.
  { unfold update_item; cbn. by rewrite lookup_alter, decide_True, Hold. }
  eexists _, w'. split; [done|]. rewrite Hdb. split; [done|]. split.
  - intros key Hkey. unfold update_item; cbn.
    by rewrite lookup_alter, decide_False.
  - intros p Hp Hid. subst pid.
    destruct (get_cart_complete stock_api user_id
                (with_db w1 (update_item (db w) (c_id sc) (prod_id p) quantity now))
                sc (mk_cart_item quantity (ci_unit_price old) (ci_added_at old) now)
                p) as (e & He & Hi & _ & Hq & Hu); [done..|].
    by exists e.
Qed.

(** X11. For a user without a cart, a call that passes the checks of the
    product id, the quantity and the stock fails with "Cart not found"
    and leaves the store as it was; that includes every removal. *)
Theorem update_without_cart (user_id product_id : string) (pid : UUID)
    (quantity available_stock now : Z) (w : world) :
  shopping_carts (db w) !! user_id = None →
  parse_uuid product_id = Some pid →
  quantity = 0
  ∨ (0 < quantity ≤ available_stock
     ∧ as_int (_get_stock_quantity stock_api pid w).1 = Some available_stock) →
  ∃ w',
    update_cart_item user_id product_id quantity now w
    = Some (UpdateError "Cart not found" None, w')
    ∧ db w' = db w.
Proof.
  intros Hnone Hparse Hq. unfold update_cart_item. rewrite Hparse.
  destruct Hq as [->|[[Hpos Hle] Hstock]].
  - cbn. unfold update_cart_item_store. rewrite Hnone. by eexists.
  - destruct (quantity <? 0) eqn:Hneg; [lia|].
    destruct (0 <? quantity) eqn:Hgt; [|lia].
    cbn in Hstock |- *. rewrite Hstock. cbn.
    destruct (available_stock <? quantity) eqn:Hcmp; [lia|].
    unfold update_cart_item_store. cbn. rewrite Hnone. by eexists.
Qed.

(** X12. [update_cart_item] never creates a line and never changes a unit
    price: every line of the store it leaves was there before, with the
    same unit price and the same time of its first add.  It changes
    nothing but the line of the product in the cart of the user: all
    other lines, the carts, the catalog and the random source are as they
    were. *)
Theorem update_never_creates_a_line (user_id product_id : string)
    (quantity now : Z) (w w' : world) (res : update_result) :
  update_cart_item user_id product_id quantity now w = Some (res, w') →
  (∀ key line', shopping_cart_items (db w') !! key = Some line' →
     ∃ line, shopping_cart_items (db w) !! key = Some line
       ∧ ci_unit_price line' = ci_unit_price line
       ∧ ci_added_at line' = ci_added_at line)
  ∧ (∀ sc pid key,
       shopping_carts (db w) !! user_id = Some sc →
       parse_uuid product_id = Some pid →
       key ≠ (c_id sc, pid) →
       shopping_cart_items (db w') !! key = shopping_cart_items (db w) !! key)
  ∧ shopping_carts (db w') = shopping_carts (db w)
  ∧ products (db w') = products (db w)
  ∧ rng_draws w' = rng_draws w.
Proof.
  intros [Hk [Hdb|(pid & sc & Hparse & Hcart & Hq & Hdb)]]%update_cart_item_inv;
    rewrite Hdb.
  - repeat split; try done. intros key line' Hl. by exists line'.
  - destruct (quantity =? 0); unfold delete_item, update_item; cbn.
    + repeat split; try done.
      * intros key line' [Hne Hl]%lookup_delete_Some. by exists line'.
      * intros sc' pid' key Hsc Hpid Hkey.
        rewrite Hcart in Hsc. rewrite Hparse in Hpid.
        injection Hsc as <-. injection Hpid as <-.
        by rewrite lookup_delete_ne.
    + repeat split; try done.
      * intros key line'. rewrite lookup_alter. case_decide as Hkey.
        -- subst key.
           destruct (shopping_cart_items (db w) !! (c_id sc, pid)) as [line|];
             cbn; [|done].
           intros [= <-]. by exists line.
        -- intros Hl. by exists line'.
      * intros sc' pid' key Hsc Hpid Hkey.
        rewrite Hcart in Hsc. rewrite Hparse in Hpid.
        injection Hsc as <-. injection Hpid as <-.
        by rewrite lookup_alter, decide_False.
Qed.

(** X13. Removing a product that has no line in the cart of the user
    succeeds and changes nothing in the store: a removal can be repeated. *)
Theorem remove_absent_line_is_noop (user_id product_id : string) (pid : UUID)
    (now : Z) (w : world) (sc : cart) :
  parse_uuid product_id = Some pid →
  shopping_carts (db w) !! user_id = Some sc →
  shopping_cart_items (db w) !! (c_id sc, pid) = None →
  ∃ cart w',
    remove_from_cart user_id product_id now w = Some (Updated cart, w')
    ∧ db w' = db w.
Proof.
  intros Hparse Hcart Hnone. unfold remove_from_cart, update_cart_item.
  rewrite Hparse. cbn.
  pose proof (update_cart_item_store_spec user_id pid 0 now w) as Hs.
  rewrite Hcart in Hs. destruct Hs as (w' & -> & Hdb & _).
  eexists _, w'. split; [done|]. rewrite Hdb. cbn.
  unfold delete_item, with_items. rewrite delete_id by done.
  by destruct (db w).
Qed.

(** X14. [update_cart_item], [remove_from_cart] and [clear_cart] keep the
    store free of lines with a quantity of zero or less: a quantity of
    zero deletes the line instead of storing it. *)
Theorem update_and_clear_keep_lines_positive (user_id : string) (w : world) :
  positive_lines (db w) →
  (∀ product_id quantity now res w',
     update_cart_item user_id product_id quantity now w = Some (res, w') →
     positive_lines (db w'))
  ∧ (∀ product_id now res w',
       remove_from_cart user_id product_id now w = Some (res, w') →
       positive_lines (db w'))
  ∧ positive_lines (db (clear_cart user_id w).2).
Proof.
  intros Hpos.
  assert (∀ product_id quantity now res w',
            update_cart_item user_id product_id quantity now w = Some (res, w') →
            positive_lines (db w')) as Hupd.
  { intros product_id quantity now res w'
      [_ [Hdb|(pid & sc & _ & _ & Hq & Hdb)]]%update_cart_item_inv;
      rewrite Hdb; [done|].
    destruct (quantity =? 0) eqn:Hz; unfold positive_lines; cbn.
    - by apply map_Forall_delete.
    - intros key line. rewrite lookup_alter. case_decide as Hkey.
      + subst key.
        destruct (shopping_cart_items (db w) !! (c_id sc, pid)); cbn; [|done].
        intros [= <-]. cbn. lia.
      + apply Hpos. }
  split; [exact Hupd|]. split.
  - intros product_id now res w'. apply Hupd.
  - unfold positive_lines. cbn. intros key line [Hl _]%map_lookup_filter_Some.
    by apply (Hpos key).
Qed.

End UpdateMore.

(** ** [add_to_cart] *)

Lemma blank_lstrip (s : string) : blank s = true → lstrip s = "".
Proof.
  induction s as [|c s IH]; [done|]. cbn.
  intros [Hc Hs]%andb_true_iff. rewrite Hc. by apply IH.
Qed.

Lemma lstrip_head (s : string) :
  lstrip s = "" ∨ ∃ c rest, lstrip s = String c rest ∧ is_space c = false.
Proof.
  induction s as [|c s IH]; [by left|]. cbn.
  destruct (is_space c) eqn:Hc; [done|]. right. by exists c, s.
Qed.

Lemma rstrip_head (c : ascii) (rest : string) :
  is_space c = false → rstrip (String c rest) ≠ "".
Proof. intros Hc. cbn. rewrite Hc. by destruct (rstrip rest). Qed.

Lemma lstrip_blank (s : string) : lstrip s = "" → blank s = true.
Proof.
  induction s as [|c s IH]; [done|]. cbn.
  destruct (is_space c); [by apply IH | done].
Qed.

(** A string strips to nothing exactly when it is white space only. *)
Lemma strip_empty_iff (s : string) : strip s = "" ↔ blank s = true.
Proof.
  unfold strip. split.
  - intros Hs. destruct (lstrip_head s) as [Hl|(c & rest & Hl & Hc)].
    + by apply lstrip_blank.
    + rewrite Hl in Hs. by apply rstrip_head in Hs.
  - intros Hb. by rewrite blank_lstrip.
Qed.

(** White space only is white space below U+0080: a blank string is a
    string of such characters, on which [strip] is [str.strip]. *)
Lemma blank_isascii (s : string) : blank s = true → isascii s = true.
Proof.
  induction s as [|c s IH]; [done|]. cbn [blank isascii].
  intros [Hc Hs]%andb_true_iff. rewrite (IH Hs), andb_true_r.
  unfold is_space in Hc. apply N.ltb_lt.
  apply orb_true_iff in Hc as [[_ H]%andb_true_iff|[_ H]%andb_true_iff];
    apply N.leb_le in H; lia.
Qed.

Lemma upsert_item_frame (d : database) (cart_id : Z) (product_id : UUID)
    (quantity : Z) (unit_price : Decimal) (now : Z) :
  let d' := (upsert_item d cart_id product_id quantity unit_price now).2 in
  products d' = products d
  ∧ shopping_carts d' = shopping_carts d
  ∧ ∀ key, key ≠ (cart_id, product_id) →
      shopping_cart_items d' !! key = shopping_cart_items d !! key.
Proof.
  unfold upsert_item.
  destruct (shopping_cart_items d !! (cart_id, product_id)); cbn;
    (repeat split; [intros key Hkey; by rewrite lookup_insert_ne]).
Qed.

Lemma update_item_frame (d : database) (cart_id : Z) (product_id : UUID)
    (quantity : Z) (now : Z) :
  let d' := update_item d cart_id product_id quantity now in
  products d' = products d
  ∧ shopping_carts d' = shopping_carts d
  ∧ ∀ key, key ≠ (cart_id, product_id) →
      shopping_cart_items d' !! key = shopping_cart_items d !! key.
Proof.
  unfold update_item; cbn. repeat split.
  intros key Hkey. by rewrite lookup_alter, decide_False.
Qed.

Section AddMore.

Variable SIMILARITY : string -> string -> Q.
Variable stock_api : nat -> UUID -> http_outcome.
Variable random : nat -> Q.

Local Abbreviation process_item := (process_item SIMILARITY stock_api random).
Local Abbreviation process_items := (process_items SIMILARITY stock_api random).
Local Abbreviation add_to_cart := (add_to_cart SIMILARITY stock_api random).
Local Abbreviation search := (_search_product SIMILARITY).
Local Abbreviation name_of item := (strip (default "" (it_product_name item))).
Local Abbreviation quantity_of item := (default 1 (it_quantity item)).

(** The store after the upsert of an item and the re-check of the stock. *)
Local Abbreviation stored d cart_id product_id quantity unit_price available_stock now :=
  (if available_stock
      <? (upsert_item d cart_id product_id quantity unit_price now).1.1
   then update_item (upsert_item d cart_id product_id quantity unit_price now).2
          cart_id product_id available_stock now
   else (upsert_item d cart_id product_id quantity unit_price now).2).

(** What one iteration of the loop does, case by case: the item is
    rejected before the stock is fetched; or it is refused for lack of
    stock; or it is written. *)
Lemma process_item_inv (cart_id : Z) (vip : bool) (now : Z)
    (st st' : loop_state) (item : request_item) :
  process_item cart_id vip now st item = Some st' →
  (ls_world st' = ls_world st
   ∧ ls_added st' = ls_added st
   ∧ ∃ f, ls_failed st' = ls_failed st ++ [f])
  ∨ ∃ product available_stock,
      0 < quantity_of item
      ∧ stock_requests (ls_world st') = S (stock_requests (ls_world st))
      ∧ ((available_stock < quantity_of item
          ∧ db (ls_world st') = db (ls_world st)
          ∧ rng_draws (ls_world st') = rng_draws (ls_world st)
          ∧ ls_added st' = ls_added st
          ∧ ∃ f, ls_failed st' = ls_failed st ++ [f])
         ∨ (quantity_of item ≤ available_stock
            ∧ db (ls_world st')
              = stored (db (ls_world st)) cart_id (f_product_id product)
                  (quantity_of item)
                  (_generate_price (f_category product)
                     (random (rng_draws (ls_world st))))
                  available_stock now
            ∧ rng_draws (ls_world st') = S (rng_draws (ls_world st))
            ∧ (∃ a, ls_added st' = ls_added st ++ [a])
            ∧ (ls_failed st' = ls_failed st
               ∨ ∃ f, ls_failed st' = ls_failed st ++ [f]))).
Proof.
  unfold process_item.
  destruct (String.eqb _ _); [intros [= <-]; left; by eauto|].
  destruct (quantity_of item <=? 0) eqn:Hq; [intros [= <-]; left; by eauto|].
  destruct (search _ _ _ _ _) as [product|]; [|intros [= <-]; left; by eauto].
  cbn [_get_stock_quantity fst snd].
  destruct (as_int _) as [available_stock|]; [|discriminate].
  cbn [mbind option_bind].
  intros Hrun. right. exists product, available_stock.
  split; [lia|].
  destruct (available_stock <? quantity_of item) eqn:Hlt.
  - injection Hrun as <-. split; [done|]. left.
    split; [lia|]. cbn. by eauto.
  - unfold generate_price in Hrun. cbn [db stock_requests rng_draws] in Hrun.
    destruct (upsert_item _ _ _ _ _ _) as [[final_quantity final_price] d3].
    cbn [fst snd].
    destruct (available_stock <? final_quantity); injection Hrun as <-;
      (split; [done|]); right; (split; [lia|]); cbn; by eauto 10.
Qed.

(** The store after an item was written. *)
Lemma stored_spec (d : database) (cart_id : Z) (product_id : UUID)
    (quantity : Z) (unit_price : Decimal) (available_stock now : Z) :
  let d' := stored d cart_id product_id quantity unit_price available_stock now in
  products d' = products d
  ∧ shopping_carts d' = shopping_carts d
  ∧ (∀ key, key ≠ (cart_id, product_id) →
       shopping_cart_items d' !! key = shopping_cart_items d !! key)
  ∧ ∃ line, shopping_cart_items d' !! (cart_id, product_id) = Some line
      ∧ ci_quantity line
        = match shopping_cart_items d !! (cart_id, product_id) with
          | None => Z.min quantity available_stock
          | Some old => Z.min (ci_quantity old + quantity) available_stock
          end.
Proof.
  pose proof (upsert_item_frame d cart_id product_id quantity unit_price now)
    as (Hp & Hc & Hother).
  pose proof (upsert_item_line d cart_id product_id quantity unit_price now)
    as Hline.
  cbn zeta in *.
  destruct (upsert_item d cart_id product_id quantity unit_price now)
    as [[final_quantity final_price] d3]. cbn [fst snd] in *.
  assert (∃ line, shopping_cart_items d3 !! (cart_id, product_id) = Some line
            ∧ ci_quantity line = final_quantity
            ∧ final_quantity
              = match shopping_cart_items d !! (cart_id, product_id) with
                | None => quantity
                | Some old => ci_quantity old + quantity
                end) as (line & Hl & Hq & Hfq).
  { destruct (shopping_cart_items d !! (cart_id, product_id)) as [old|];
      destruct Hline as [[= <- <-] ->]; by eexists. }
  destruct (available_stock <? final_quantity) eqn:Hcmp.
  - pose proof (update_item_frame d3 cart_id product_id available_stock now)
      as (Hp' & Hc' & Hother'). cbn zeta in *.
    split; [congruence|]. split; [congruence|]. split.
    + intros key Hkey. rewrite Hother' by done. by apply Hother.
    + unfold update_item; cbn. rewrite lookup_alter, decide_True, Hl by done.
      eexists. split; [done|]. cbn.
      destruct (shopping_cart_items d !! (cart_id, product_id)); lia.
  - split; [done|]. split; [done|]. split; [done|].
    exists line. split; [done|].
    destruct (shopping_cart_items d !! (cart_id, product_id)); lia.
Qed.

(** The loop leaves the carts and the catalog alone and writes lines of
    the cart it works on only. *)
Lemma process_items_frame (cart_id : Z) (vip : bool) (now : Z)
    (items : list request_item) (st st' : loop_state) :
  process_items cart_id vip now items st = Some st' →
  products (db (ls_world st')) = products (db (ls_world st))
  ∧ shopping_carts (db (ls_world st')) = shopping_carts (db (ls_world st))
  ∧ ∀ key, key.1 ≠ cart_id →
      shopping_cart_items (db (ls_world st')) !! key
      = shopping_cart_items (db (ls_world st)) !! key.
Proof.
  revert st. induction items as [|item rest IH]; intros st; cbn.
  - by intros [= <-].
  - destruct (process_item cart_id vip now st item) as [st1|] eqn:H1;
      [|discriminate]. cbn. intros (Hp & Hc & Hk)%IH.
    assert (products (db (ls_world st1)) = products (db (ls_world st))
            ∧ shopping_carts (db (ls_world st1)) = shopping_carts (db (ls_world st))
            ∧ ∀ key, key.1 ≠ cart_id →
                shopping_cart_items (db (ls_world st1)) !! key
                = shopping_cart_items (db (ls_world st)) !! key) as (Hp1 & Hc1 & Hk1).
    { apply process_item_inv in H1
        as [(-> & _)|(product & available_stock & _ & _
                      & [(_ & -> & _)|(_ & -> & _)])]; [done|done|].
      pose proof (stored_spec (db (ls_world st)) cart_id (f_product_id product)
        (quantity_of item)
        (_generate_price (f_category product) (random (rng_draws (ls_world st))))
        available_stock now) as (Hp1 & Hc1 & Hk1 & _).
      split; [done|]. split; [done|].
      intros key Hkey. apply Hk1. intros ->. by apply Hkey. }
    split; [congruence|]. split; [congruence|].
    intros key Hkey. rewrite Hk by done. by apply Hk1.
Qed.

Lemma process_items_cons (cart_id : Z) (vip : bool) (now : Z)
    (item : request_item) (rest : list request_item) (st : loop_state) :
  process_items cart_id vip now (item :: rest) st
  = process_item cart_id vip now st item ≫= process_items cart_id vip now rest.
Proof. done. Qed.

Lemma process_items_app (cart_id : Z) (vip : bool) (now : Z)
    (items1 items2 : list request_item) (st : loop_state) :
  process_items cart_id vip now (items1 ++ items2) st
  = process_items cart_id vip now items1 st
      ≫= process_items cart_id vip now items2.
Proof.
  revert st. induction items1 as [|item rest IH]; intros st; cbn; [done|].
  destruct (process_item cart_id vip now st item) as [st1|]; cbn; [|done].
  apply IH.
Qed.

(** The lists of the loop are only appended to: the loop started on lists
    that are not empty does what it does on empty lists, in front of
    which the lists it started on are put. *)
Local Abbreviation prepend added failed :=
  (λ st, mk_loop_state (ls_world st) (added ++ ls_added st) (failed ++ ls_failed st)).

Lemma process_item_acc (cart_id : Z) (vip : bool) (now : Z) (w : world)
    (added : list added_item) (failed : list failed_item) (item : request_item) :
  process_item cart_id vip now (mk_loop_state w added failed) item
  = prepend added failed
      <$> process_item cart_id vip now (mk_loop_state w [] []) item.
Proof.
  unfold process_item, fail_item. cbn [ls_world ls_added ls_failed].
  destruct (String.eqb _ _); [cbn; by rewrite app_nil_r|].
  destruct (quantity_of item <=? 0); [cbn; by rewrite app_nil_r|].
  destruct (search _ _ _ _ _) as [product|]; [|cbn; by rewrite app_nil_r].
  cbn [_get_stock_quantity fst snd].
  destruct (as_int _) as [available_stock|]; [|done].
  cbn [mbind option_bind].
  destruct (available_stock <? quantity_of item); [cbn; by rewrite app_nil_r|].
  destruct (generate_price _ _ _) as [unit_price w2].
  destruct (upsert_item _ _ _ _ _ _) as [[final_quantity final_price] d3].
  destruct (available_stock <? final_quantity); cbn; by rewrite ?app_nil_r.
Qed.

Lemma process_items_acc (cart_id : Z) (vip : bool) (now : Z)
    (items : list request_item) (w : world)
    (added : list added_item) (failed : list failed_item) :
  process_items cart_id vip now items (mk_loop_state w added failed)
  = prepend added failed
      <$> process_items cart_id vip now items (mk_loop_state w [] []).
Proof.
  revert w added failed. induction items as [|item rest IH];
    intros w added failed.
  - cbn. by rewrite !app_nil_r.
  - rewrite !process_items_cons.
    rewrite (process_item_acc _ _ _ _ added failed).
    destruct (process_item cart_id vip now (mk_loop_state w [] []) item)
      as [[w1 added1 failed1]|]; [|done].
    cbn [fmap option_fmap option_map mbind option_bind ls_world ls_added ls_failed].
    rewrite (IH w1 (added ++ added1) (failed ++ failed1)).
    rewrite (IH w1 added1 failed1).
    destruct (process_items cart_id vip now rest (mk_loop_state w1 [] []))
      as [[w2 added2 failed2]|]; [|done].
    cbn. by rewrite !app_assoc.
Qed.

Lemma ensure_cart_spec (d : database) (user_id : string) (now : Z) :
  let r := ensure_cart d user_id now in
  products r.2 = products d
  ∧ shopping_cart_items r.2 = shopping_cart_items d
  ∧ (∀ other, other ≠ user_id →
       shopping_carts r.2 !! other = shopping_carts d !! other)
  ∧ ∃ sc', shopping_carts r.2 !! user_id = Some sc'
      ∧ c_id sc' = r.1
      ∧ c_updated_at sc' = now
      ∧ match shopping_carts d !! user_id with
        | Some sc => c_id sc' = c_id sc ∧ c_created_at sc' = c_created_at sc
        | None => c_created_at sc' = now
        end.
Proof.
  unfold ensure_cart.
  destruct (shopping_carts d !! user_id) as [sc|]; cbn;
    (split; [done|]); (split; [done|]);
    (split; [intros other Hne; by rewrite lookup_insert_ne|]);
    rewrite lookup_insert_eq; by eexists.
Qed.

(** What a returning call of [add_to_cart] did: the early return, or the
    loop on the cart and the read of the cart after it. *)
Lemma add_to_cart_inv (user_id : string) (items : list request_item)
    (vip : bool) (now : Z) (w w' : world) (res : add_result) :
  add_to_cart user_id items vip now w = Some (res, w') →
  ((ensure_cart (db w) user_id now).1 = 0
   ∧ res = NoCart "Failed to create or retrieve cart" items
   ∧ w' = with_db w (ensure_cart (db w) user_id now).2)
  ∨ ((ensure_cart (db w) user_id now).1 ≠ 0
     ∧ ∃ st,
         process_items (ensure_cart (db w) user_id now).1 vip now items
           (mk_loop_state (with_db w (ensure_cart (db w) user_id now).2) [] [])
         = Some st
         ∧ res = Added (bool_decide (length (ls_failed st) = 0%nat))
                   (ls_added st) (ls_failed st)
                   (summary_total_price (get_cart stock_api user_id (ls_world st)).1)
                   (summary_total_items (get_cart stock_api user_id (ls_world st)).1)
         ∧ w' = (get_cart stock_api user_id (ls_world st)).2).
Proof.
  unfold add_to_cart.
  destruct (ensure_cart (db w) user_id now) as [cart_id d1]. cbn [fst snd].
  destruct (cart_id =? 0) eqn:Hz.
  - intros [= <- <-]. left. split; [lia|done].
  - destruct (process_items _ _ _ _ _) as [st|]; [|discriminate].
    cbn [mbind option_bind].
    destruct (get_cart stock_api user_id (ls_world st)) as [cart w2] eqn:Hget.
    intros [= <- <-]. right. split; [lia|]. exists st. by rewrite Hget.
Qed.

Lemma process_items_counts (cart_id : Z) (vip : bool) (now : Z)
    (items : list request_item) (st st' : loop_state) :
  process_items cart_id vip now items st = Some st' →
  (length (ls_added st') ≤ length (ls_added st) + length items
   ∧ length (ls_failed st') ≤ length (ls_failed st) + length items
   ∧ length items + length (ls_added st) + length (ls_failed st)
     ≤ length (ls_added st') + length (ls_failed st')
   ∧ rng_draws (ls_world st') + length (ls_added st)
     = rng_draws (ls_world st) + length (ls_added st'))%nat.
Proof.
  revert st. induction items as [|item rest IH]; intros st; cbn.
  - intros [= <-]. lia.
  - destruct (process_item cart_id vip now st item) as [st1|] eqn:H1;
      [|discriminate]. cbn. intros Hrest%IH.
    apply process_item_inv in H1
      as [(Hk%(f_equal rng_draws) & Ha & f & Hf)
         |(product & available_stock & _ & _
           & [(_ & _ & Hk & Ha & f & Hf)
             |(_ & _ & Hk & [a Ha] & [Hf|[f Hf]])])];
      apply (f_equal length) in Ha, Hf;
      rewrite ?length_app in Ha; rewrite ?length_app in Hf;
      cbn [length] in *; lia.
Qed.

Lemma process_items_positive (cart_id : Z) (vip : bool) (now : Z)
    (items : list request_item) (st st' : loop_state) :
  process_items cart_id vip now items st = Some st' →
  positive_lines (db (ls_world st)) → positive_lines (db (ls_world st')).
Proof.
  revert st. induction items as [|item rest IH]; intros st; cbn.
  - by intros [= <-].
  - destruct (process_item cart_id vip now st item) as [st1|] eqn:H1;
      [|discriminate]. cbn. intros Hrest Hpos. apply (IH st1 Hrest).
    apply process_item_inv in H1
      as [(-> & _)|(product & available_stock & Hq & _
                    & [(_ & -> & _)|(Hle & -> & _)])]; [done|done|].
    pose proof (stored_spec (db (ls_world st)) cart_id (f_product_id product)
      (quantity_of item)
      (_generate_price (f_category product) (random (rng_draws (ls_world st))))
      available_stock now) as (_ & _ & Hother & line & Hline & Hqty).
    intros key line' Hl.
    destruct (decide (key = (cart_id, f_product_id product))) as [->|Hne].
    + rewrite Hline in Hl. injection Hl as <-. rewrite Hqty.
      destruct (shopping_cart_items (db (ls_world st))
                  !! (cart_id, f_product_id product)) as [old|] eqn:Hold; [|lia].
      pose proof (Hpos _ _ Hold). cbn in *. lia.
    + rewrite Hother in Hl by done. by apply (Hpos key).
Qed.

Lemma process_items_without_filters (cart_id : Z) (vip : bool) (now : Z)
    (items : list request_item) (st : loop_state) :
  process_items cart_id vip now (without_filters <$> items) st
  = process_items cart_id vip now items st.
Proof.
  revert st. induction items as [|item rest IH]; intros st; [done|].
  rewrite fmap_cons, !process_items_cons.
  assert (process_item cart_id vip now st (without_filters item)
          = process_item cart_id vip now st item) as -> by done.
  destruct (process_item cart_id vip now st item) as [st1|]; cbn; [|done].
  apply IH.
Qed.

Lemma process_item_blank (cart_id : Z) (vip : bool) (now : Z)
    (st : loop_state) (item : request_item) :
  blank (default "" (it_product_name item)) = true →
  process_item cart_id vip now st item
  = Some (fail_item st (ls_world st)
            (mk_failed_item "" None None None "Product name is required")).
Proof. intros Hb%strip_empty_iff. unfold process_item. by rewrite Hb. Qed.

(** X17. A call with no items, once the cart is there, succeeds with
    empty lists: it creates or touches the cart of the user, leaves every
    line as it was and reports the totals of the cart as it is. *)
Theorem add_nothing (user_id : string) (vip : bool) (now : Z) (w : world) :
  (ensure_cart (db w) user_id now).1 ≠ 0 →
  ∃ w',
    add_to_cart user_id [] vip now w
    = Some (Added true [] []
              (sum_of row_total_price (select_cart (db w') user_id))
              (sum_of row_quantity (select_cart (db w') user_id)), w')
    ∧ db w' = (ensure_cart (db w) user_id now).2
    ∧ shopping_cart_items (db w') = shopping_cart_items (db w)
    ∧ is_Some (shopping_carts (db w') !! user_id).
Proof.
  intros Hid. unfold add_to_cart.
  pose proof (ensure_cart_spec (db w) user_id now)
    as (_ & Hitems & _ & sc' & Hsc & _).
  cbn zeta in *.
  destruct (ensure_cart (db w) user_id now) as [cart_id d1]. cbn [fst snd] in *.
  destruct (cart_id =? 0) eqn:Hz; [lia|].
  change (process_items cart_id vip now [] ?st) with (Some st).
  cbn [mbind option_bind ls_world].
  rewrite get_cart_closed. cbn -[select_cart sum_of].
  exists (mk_world d1 (stock_requests w + length (select_cart d1 user_id))
            (rng_draws w)).
  split; [reflexivity|]. cbn. by eauto.
Qed.

(** X18. [add_to_cart] makes sure the user has a cart: after every call
    that returns, the user has a cart row whose update time is the time
    of the call; a cart that was there keeps its id and its creation
    time.  The cart rows of all other users and the catalog are as they
    were. *)
Theorem add_to_cart_ensures_cart (user_id : string) (items : list request_item)
    (vip : bool) (now : Z) (w w' : world) (res : add_result) :
  add_to_cart user_id items vip now w = Some (res, w') →
  (∃ sc', shopping_carts (db w') !! user_id = Some sc'
     ∧ c_updated_at sc' = now
     ∧ match shopping_carts (db w) !! user_id with
       | Some sc => c_id sc' = c_id sc ∧ c_created_at sc' = c_created_at sc
       | None => c_created_at sc' = now
       end)
  ∧ (∀ other, other ≠ user_id →
       shopping_carts (db w') !! other = shopping_carts (db w) !! other)
  ∧ products (db w') = products (db w).
Proof.
  intros Hrun.
  pose proof (ensure_cart_spec (db w) user_id now)
    as (Hp & _ & Hother & sc' & Hsc & _ & Hupd & Hold). cbn zeta in *.
  assert (products (db w') = products (ensure_cart (db w) user_id now).2
          ∧ shopping_carts (db w')
            = shopping_carts (ensure_cart (db w) user_id now).2) as [Hp' Hc'].
  { apply add_to_cart_inv in Hrun as [(_ & _ & ->)|(_ & st & Hloop & _ & ->)];
      [done|].
    apply process_items_frame in Hloop as (Hp1 & Hc1 & _).
    by rewrite (proj1 (get_cart_world stock_api user_id (ls_world st))). }
  rewrite Hp', Hc'. split; [by exists sc'|]. by split.
Qed.

(** X19. Every item of the request is answered: the lists [added_items]
    and [failed_items] have at most one entry each per item and at least
    one entry between them per item.  A price is drawn for every entry of
    [added_items], also when the line was there and the drawn price is
    not stored. *)
Theorem every_item_is_reported (user_id : string) (items : list request_item)
    (vip : bool) (now : Z) (w w' : world) (success : bool)
    (added : list added_item) (failed : list failed_item)
    (cart_total : Decimal) (total_items : Z) :
  add_to_cart user_id items vip now w
    = Some (Added success added failed cart_total total_items, w') →
  (length added ≤ length items
   ∧ length failed ≤ length items
   ∧ length items ≤ length added + length failed
   ∧ rng_draws w' = rng_draws w + length added)%nat.
Proof.
  intros [(_ & [=] & _)|(_ & st & Hloop & [= -> -> -> _ _] & ->)]%add_to_cart_inv.
  apply process_items_counts in Hloop. cbn in Hloop.
  rewrite (proj2 (get_cart_world stock_api user_id (ls_world st))). lia.
Qed.


(** X21. [add_to_cart] writes lines of one cart only, the one it got the
    id of: the lines of every other cart are as they were. *)
Theorem add_to_cart_writes_one_cart (user_id : string)
    (items : list request_item) (vip : bool) (now : Z) (w w' : world)
    (res : add_result) :
  add_to_cart user_id items vip now w = Some (res, w') →
  ∀ cart_id product_id,
    cart_id ≠ (ensure_cart (db w) user_id now).1 →
    shopping_cart_items (db w') !! (cart_id, product_id)
    = shopping_cart_items (db w) !! (cart_id, product_id).
Proof.
  intros Hrun cart_id product_id Hne.
  pose proof (ensure_cart_spec (db w) user_id now) as (_ & Hitems & _).
  cbn zeta in Hitems.
  apply add_to_cart_inv in Hrun as [(_ & _ & ->)|(_ & st & Hloop & _ & ->)].
  - cbn. by rewrite Hitems.
  - apply process_items_frame in Hloop as (_ & _ & Hk).
    rewrite (proj1 (get_cart_world stock_api user_id (ls_world st))).
    rewrite (Hk (cart_id, product_id)) by done. cbn. by rewrite Hitems.
Qed.

(** X22. [add_to_cart] keeps the store free of lines with a quantity of
    zero or less: it writes a requested quantity that is positive, adds
    it to a quantity that is positive, or cuts the line down to a stock
    that is at least the requested quantity. *)
Theorem add_to_cart_keeps_lines_positive (user_id : string)
    (items : list request_item) (vip : bool) (now : Z) (w w' : world)
    (res : add_result) :
  positive_lines (db w) →
  add_to_cart user_id items vip now w = Some (res, w') →
  positive_lines (db w').
Proof.
  intros Hpos Hrun.
  pose proof (ensure_cart_spec (db w) user_id now) as (_ & Hitems & _).
  cbn zeta in Hitems.
  assert (positive_lines (ensure_cart (db w) user_id now).2) as Hpos1.
  { unfold positive_lines. by rewrite Hitems. }
  apply add_to_cart_inv in Hrun as [(_ & _ & ->)|(_ & st & Hloop & _ & ->)];
    [done|].
  rewrite (proj1 (get_cart_world stock_api user_id (ls_world st))).
  by apply (process_items_positive _ _ _ _ _ _ Hloop).
Qed.

(** X23. The [category] and [is_organic] filters of an item have no
    effect: a request does the same with and without them, but for the
    items echoed by the early return. *)
Theorem filters_have_no_effect (user_id : string) (items : list request_item)
    (vip : bool) (now : Z) (w : world) :
  add_to_cart user_id (without_filters <$> items) vip now w
  = match add_to_cart user_id items vip now w with
    | Some (NoCart error failed, w') =>
        Some (NoCart error (without_filters <$> failed), w')
    | r => r
    end.
Proof.
  unfold add_to_cart.
  destruct (ensure_cart (db w) user_id now) as [cart_id d1].
  destruct (cart_id =? 0); [done|].
  rewrite process_items_without_filters.
  destruct (process_items _ _ _ _ _) as [st|]; [|done].
  cbn [mbind option_bind].
  by destruct (get_cart stock_api user_id (ls_world st)) as [cart w2].
Qed.

(** X24. The totals [add_to_cart] returns are those of the cart as the
    call leaves it: [cart_total] is the sum of quantity times unit price
    over the lines [get_cart] would list, and [total_items] the sum of
    their quantities. *)
Theorem add_to_cart_returns_cart_totals (user_id : string)
    (items : list request_item) (vip : bool) (now : Z) (w w' : world)
    (success : bool) (added : list added_item) (failed : list failed_item)
    (cart_total : Decimal) (total_items : Z) :
  add_to_cart user_id items vip now w
    = Some (Added success added failed cart_total total_items, w') →
  cart_total = sum_of row_total_price (select_cart (db w') user_id)
  ∧ total_items = sum_of row_quantity (select_cart (db w') user_id)
  ∧ cart_total
    = summary_total_price (get_cart stock_api user_id w').1
  ∧ total_items
    = summary_total_items (get_cart stock_api user_id w').1.
Proof.
  intros [(_ & [=] & _)|(_ & st & Hloop & [= _ _ _ -> ->] & ->)]%add_to_cart_inv.
  rewrite !get_cart_closed. cbn. done.
Qed.

(** X25. Whatever the catalog holds, a product returned by
    [_search_product] carries the category 'Unknown' and is not organic;
    so every price [add_to_cart] draws comes from the default range and
    lies between 2.00 and 10.00. *)
Theorem found_product_is_priced_by_default (d : database) (name : string)
    (vip : bool) (category : option string) (is_organic : option bool)
    (product : found) (u : Q) :
  search d name vip category is_organic = Some product →
  (0 <= u)%Q ∧ (u < 1)%Q →
  f_category product = Some "Unknown"
  ∧ f_is_organic product = false
  ∧ 200 ≤ _generate_price (f_category product) u ≤ 1000.
Proof.
  intros Hsearch [Hu0 Hu1]. unfold _search_product in Hsearch.
  apply order_by_sim_Some in Hsearch as [Hin _].
  apply search_rows_elem in Hin as (p & _ & _ & ->). cbn [f_category search_select].
  split; [done|]. split; [done|]. by apply generate_price_unknown_bounds.
Qed.

End AddMore.

(** ** The items of a call of [add_to_cart] *)

Section AddCall.

Variable SIMILARITY : string -> string -> Q.
Variable stock_api : nat -> UUID -> http_outcome.
Variable random : nat -> Q.

Local Abbreviation process_item := (process_item SIMILARITY stock_api random).
Local Abbreviation process_items := (process_items SIMILARITY stock_api random).
Local Abbreviation add_to_cart := (add_to_cart SIMILARITY stock_api random).
Local Abbreviation search := (_search_product SIMILARITY).
Local Abbreviation name_of item := (strip (default "" (it_product_name item))).
Local Abbreviation quantity_of item := (default 1 (it_quantity item)).
Local Abbreviation stock_of product_id w :=
  (as_int (_get_stock_quantity stock_api product_id w).1).
Local Abbreviation line_of d cart_id product_id :=
  (shopping_cart_items d !! (cart_id, product_id)).

(** The id of the cart a call works on, and the state on which its loop
    starts. *)
Local Abbreviation cart_of user_id now w := (ensure_cart (db w) user_id now).1.
Local Abbreviation start user_id now w :=
  (mk_loop_state (with_db w (ensure_cart (db w) user_id now).2) [] []).

(** The loop on a world, its two lists empty. *)
Local Abbreviation on w := (mk_loop_state w [] []).

(** The world after a request to the stock source; and after a request,
    a draw of a price and a write that leaves the store [d]. *)
Local Abbreviation asked w :=
  (mk_world (db w) (S (stock_requests w)) (rng_draws w)).
Local Abbreviation written w d :=
  (mk_world d (S (stock_requests w)) (S (rng_draws w))).

(** The store after the upsert of an item and the re-check of the stock. *)
Local Abbreviation stored d cart_id product_id quantity unit_price available_stock now :=
  (if available_stock
      <? (upsert_item d cart_id product_id quantity unit_price now).1.1
   then update_item (upsert_item d cart_id product_id quantity unit_price now).2
          cart_id product_id available_stock now
   else (upsert_item d cart_id product_id quantity unit_price now).2).

(** What the call returns when its loop has ended in the state [st], for
    the flag and the lists given: the totals are those of the cart read
    after the loop. *)
Local Abbreviation answer user_id success added failed st :=
  (Some (Added success added failed
           (summary_total_price (get_cart stock_api user_id (ls_world st)).1)
           (summary_total_items (get_cart stock_api user_id (ls_world st)).1),
         (get_cart stock_api user_id (ls_world st)).2)).

(** A call on a request that has [item] somewhere in it is made of the
    loop on the items before it, the iteration on [item] and the loop on
    the items after it; each of the three appends its entries to the two
    lists. *)
Lemma add_to_cart_around (user_id : string) (items1 : list request_item)
    (item : request_item) (items2 : list request_item) (vip : bool) (now : Z)
    (w : world) (st1 sti st2 : loop_state) :
  cart_of user_id now w ≠ 0 →
  process_items (cart_of user_id now w) vip now items1 (start user_id now w)
    = Some st1 →
  process_item (cart_of user_id now w) vip now (on (ls_world st1)) item
    = Some sti →
  process_items (cart_of user_id now w) vip now items2 (on (ls_world sti))
    = Some st2 →
  add_to_cart user_id (items1 ++ item :: items2) vip now w
  = answer user_id
      (bool_decide
         (length (ls_failed st1 ++ ls_failed sti ++ ls_failed st2) = 0%nat))
      (ls_added st1 ++ ls_added sti ++ ls_added st2)
      (ls_failed st1 ++ ls_failed sti ++ ls_failed st2) st2.
Proof.
  intros Hid H1 Hi H2. unfold add_to_cart.
  destruct (ensure_cart (db w) user_id now) as [cart_id d1]. cbn [fst snd] in *.
  destruct (cart_id =? 0) eqn:Hz; [lia|]. clear Hz.
  rewrite process_items_app, H1. cbn [mbind option_bind].
  rewrite process_items_cons.
  destruct st1 as [w1 added1 failed1]. cbn [ls_world ls_added ls_failed] in *.
  rewrite process_item_acc, Hi.
  cbn [fmap option_fmap option_map mbind option_bind].
  rewrite process_items_acc, H2.
  cbn [fmap option_fmap option_map mbind option_bind ls_world ls_added ls_failed].
  destruct (get_cart stock_api user_id (ls_world st2)) as [cart w3].
  cbn [fst snd]. by rewrite <- !app_assoc.
Qed.

(** The loop up to and including [item]. *)
Lemma process_items_snoc (cart_id : Z) (vip : bool) (now : Z)
    (items1 : list request_item) (item : request_item)
    (st st1 sti : loop_state) :
  process_items cart_id vip now items1 st = Some st1 →
  process_item cart_id vip now (on (ls_world st1)) item = Some sti →
  process_items cart_id vip now (items1 ++ [item]) st
  = Some (mk_loop_state (ls_world sti) (ls_added st1 ++ ls_added sti)
            (ls_failed st1 ++ ls_failed sti)).
Proof.
  intros H1 Hi. rewrite process_items_app, H1. cbn [mbind option_bind].
  rewrite process_items_cons.
  destruct st1 as [w1 added1 failed1]. cbn [ls_world ls_added ls_failed] in *.
  rewrite process_item_acc, Hi. done.
Qed.

(** The iteration on an item that passes the validation and resolves to
    [product], when the stock does not cover the requested quantity. *)
Lemma process_item_refused (cart_id : Z) (vip : bool) (now : Z) (w1 : world)
    (item : request_item) (product : found) (available_stock : Z) :
  name_of item ≠ "" →
  0 < quantity_of item →
  search (db w1) (name_of item) vip (it_category item) (it_is_organic item)
    = Some product →
  stock_of (f_product_id product) w1 = Some available_stock →
  available_stock < quantity_of item →
  process_item cart_id vip now (on w1) item
  = Some (mk_loop_state (asked w1) []
            [mk_failed_item (f_product_name product)
               (Some (f_product_id product)) (Some (quantity_of item))
               (Some available_stock)
               ("Insufficient stock (only " ++ str_int available_stock
                  ++ " available)")%string]).
Proof.
  intros Hname Hpos Hsearch Hstock Hlt.
  rewrite (process_item_resolved SIMILARITY stock_api random cart_id vip now
             (on w1) item product available_stock) by done.
  cbn zeta. by destruct (available_stock <? quantity_of item) eqn:Hcmp; [|lia].
Qed.

(** The same when the stock covers the requested quantity: the line is
    written, and cut down to the stock when it exceeds it. *)
Lemma process_item_written (cart_id : Z) (vip : bool) (now : Z) (w1 : world)
    (item : request_item) (product : found) (available_stock : Z) :
  name_of item ≠ "" →
  search (db w1) (name_of item) vip (it_category item) (it_is_organic item)
    = Some product →
  stock_of (f_product_id product) w1 = Some available_stock →
  0 < quantity_of item ≤ available_stock →
  let product_id := f_product_id product in
  let quantity := quantity_of item in
  let unit_price :=
    _generate_price (f_category product) (random (rng_draws w1)) in
  let up := upsert_item (db w1) cart_id product_id quantity unit_price now in
  process_item cart_id vip now (on w1) item
  = Some (mk_loop_state
            (written w1
               (stored (db w1) cart_id product_id quantity unit_price
                  available_stock now))
            [mk_added_item product_id (f_product_name product) quantity up.1.2
               (up.1.2 * (if available_stock <? up.1.1 then available_stock
                          else up.1.1))]
            (if available_stock <? up.1.1 then
               [mk_failed_item (f_product_name product) (Some product_id)
                  (Some quantity) (Some available_stock)
                  ("Reduced quantity to available stock ("
                     ++ str_int available_stock ++ ")")%string]
             else [])).
Proof.
  intros Hname Hsearch Hstock [Hpos Hle].
  rewrite (process_item_resolved SIMILARITY stock_api random cart_id vip now
             (on w1) item product available_stock) by done.
  cbn zeta.
  destruct (available_stock <? quantity_of item) eqn:Hcmp; [lia|]. clear Hcmp.
  cbn [ls_world ls_added ls_failed app].
  by destruct (available_stock <? _).
Qed.

(** C4. Take a call whose request has, somewhere in it, an item that
    passes the validation and resolves to a product for which the stock
    source answers [available_stock].  When the requested quantity exceeds
    [available_stock], the item is skipped before any write: after its
    iteration the loop stands on the store as the items before it left
    it, and the call returns [success] false and, in [failed_items], at
    the place of the item, the failure "Insufficient stock" with the
    available count; the item adds nothing to [added_items].  When the
    stock covers the requested quantity, the line of the product holds,
    after a call that ends with the item, what it held plus the requested
    quantity, cut down to [available_stock]. *)
Theorem over_stock_item_is_refused_and_reported (user_id : string)
    (items1 : list request_item) (item : request_item)
    (items2 : list request_item) (vip : bool) (now : Z) (w : world)
    (st1 : loop_state) (product : found) (available_stock : Z) :
  let cart_id := cart_of user_id now w in
  let w1 := ls_world st1 in
  let product_id := f_product_id product in
  let quantity := quantity_of item in
  let failure :=
    mk_failed_item (f_product_name product) (Some product_id) (Some quantity)
      (Some available_stock)
      ("Insufficient stock (only " ++ str_int available_stock
         ++ " available)")%string in
  cart_id ≠ 0 →
  process_items cart_id vip now items1 (start user_id now w) = Some st1 →
  name_of item ≠ "" →
  0 < quantity →
  search (db w1) (name_of item) vip (it_category item) (it_is_organic item)
    = Some product →
  stock_of product_id w1 = Some available_stock →
  (available_stock < quantity →
   process_items cart_id vip now (items1 ++ [item]) (start user_id now w)
   = Some (mk_loop_state (asked w1) (ls_added st1) (ls_failed st1 ++ [failure]))
   ∧ ∀ st2,
       process_items cart_id vip now items2 (on (asked w1)) = Some st2 →
       add_to_cart user_id (items1 ++ item :: items2) vip now w
       = answer user_id false (ls_added st1 ++ ls_added st2)
           (ls_failed st1 ++ failure :: ls_failed st2) st2)
  ∧ (quantity ≤ available_stock →
     ∃ res w' line,
       add_to_cart user_id (items1 ++ [item]) vip now w = Some (res, w')
       ∧ line_of (db w') cart_id product_id = Some line
       ∧ ci_quantity line
         = Z.min
             match line_of (db w1) cart_id product_id with
             | None => quantity
             | Some old => ci_quantity old + quantity
             end
             available_stock
       ∧ ci_quantity line ≤ available_stock).
Proof.
  intros cart_id w1 product_id quantity failure Hid H1 Hname Hpos Hsearch Hstock.
  split.
  - intros Hlt.
    pose proof (process_item_refused cart_id vip now w1 item product
      available_stock Hname Hpos Hsearch Hstock Hlt) as Hi.
    split.
    + rewrite (process_items_snoc _ _ _ _ _ _ _ _ H1 Hi).
      cbn [ls_world ls_added ls_failed]. by rewrite app_nil_r.
    + intros st2 H2.
      rewrite (add_to_cart_around user_id items1 item items2 vip now w st1 _ st2
                 Hid H1 Hi H2).
      cbn [ls_world ls_added ls_failed app].
      rewrite bool_decide_eq_false_2; [done|].
      rewrite length_app. cbn [length]. lia.
  - intros Hle.
    pose proof (process_item_written cart_id vip now w1 item product
      available_stock Hname Hsearch Hstock (conj Hpos Hle)) as Hi.
    cbn zeta in Hi.
    rewrite (add_to_cart_around user_id items1 item [] vip now w st1 _ _
               Hid H1 Hi eq_refl).
    pose proof (stored_spec (db w1) cart_id product_id quantity
      (_generate_price (f_category product) (random (rng_draws w1)))
      available_stock now) as (_ & _ & _ & line & Hline & Hq).
    eexists _, _, line. split; [reflexivity|].
    rewrite (proj1 (get_cart_world stock_api user_id _)). cbn [ls_world db].
    split; [exact Hline|]. rewrite Hq.
    destruct (line_of (db w1) cart_id product_id); split; (reflexivity || lia).
Qed.

(** C7, as the code has it.  When [add_to_cart] gets past the creation
    of the cart, [success] is true exactly when [failed_items] is empty,
    and then every item of the request has its entry in [added_items].
    Take a call whose request has, somewhere in it, an item that passes
    the validation and resolves to a product in stock, whose line, with
    the requested quantity added, exceeds the stock snapshot.  The call
    returns [success] false and the item in both lists, each at the place
    of the item: in [failed_items] with the reason "Reduced quantity to
    available stock" and the available count; in [added_items] with the
    quantity that was requested, the unit price of the line and, as its
    total, that price times the available stock.  The line is stored with
    the available stock as its quantity, and it is on this store that the
    loop goes on. *)
Theorem success_iff_no_failures_and_clamped_item_in_both_lists :
  (∀ user_id items vip now w w' success added failed cart_total total_items,
     add_to_cart user_id items vip now w
       = Some (Added success added failed cart_total total_items, w') →
     (success = true ↔ failed = [])
     ∧ (success = true → length added = length items))
  ∧ (∀ user_id items1 item items2 vip now w st1 product available_stock old st2,
       let cart_id := cart_of user_id now w in
       let w1 := ls_world st1 in
       let product_id := f_product_id product in
       let quantity := quantity_of item in
       let clamped :=
         update_item
           (upsert_item (db w1) cart_id product_id quantity
              (_generate_price (f_category product) (random (rng_draws w1)))
              now).2
           cart_id product_id available_stock now in
       let entry :=
         mk_added_item product_id (f_product_name product) quantity
           (ci_unit_price old) (ci_unit_price old * available_stock) in
       let failure :=
         mk_failed_item (f_product_name product) (Some product_id)
           (Some quantity) (Some available_stock)
           ("Reduced quantity to available stock ("
              ++ str_int available_stock ++ ")")%string in
       cart_id ≠ 0 →
       process_items cart_id vip now items1 (start user_id now w) = Some st1 →
       name_of item ≠ "" →
       search (db w1) (name_of item) vip (it_category item) (it_is_organic item)
         = Some product →
       stock_of product_id w1 = Some available_stock →
       0 < quantity ≤ available_stock →
       line_of (db w1) cart_id product_id = Some old →
       available_stock < ci_quantity old + quantity →
       process_items cart_id vip now items2 (on (written w1 clamped)) = Some st2 →
       add_to_cart user_id (items1 ++ item :: items2) vip now w
       = answer user_id false (ls_added st1 ++ entry :: ls_added st2)
           (ls_failed st1 ++ failure :: ls_failed st2) st2
       ∧ process_items cart_id vip now (items1 ++ [item]) (start user_id now w)
         = Some (mk_loop_state (written w1 clamped) (ls_added st1 ++ [entry])
                   (ls_failed st1 ++ [failure]))
       ∧ line_of clamped cart_id product_id
         = Some (mk_cart_item available_stock (ci_unit_price old)
                   (ci_added_at old) now)).
Proof.
  split.
  - intros user_id items vip now w w' success added failed cart_total total_items
      [(_ & [=] & _)|(_ & st & Hloop & [= -> -> -> _ _] & _)]%add_to_cart_inv.
    assert (bool_decide (length (ls_failed st) = 0%nat) = true ↔ ls_failed st = [])
      as Hiff.
    { rewrite bool_decide_eq_true. apply length_zero_iff_nil. }
    split; [exact Hiff|]. intros Hnil%Hiff.
    apply process_items_counts in Hloop as (Ha & _ & Hall & _).
    rewrite Hnil in Hall. cbn [ls_added ls_failed length] in *. lia.
  - intros user_id items1 item items2 vip now w st1 product available_stock old
      st2 cart_id w1 product_id quantity clamped entry failure
      Hid H1 Hname Hsearch Hstock Hq Hold Hover H2.
    pose proof (process_item_written cart_id vip now w1 item product
      available_stock Hname Hsearch Hstock Hq) as Hi.
    pose proof (upsert_item_line (db w1) cart_id product_id quantity
      (_generate_price (f_category product) (random (rng_draws w1))) now) as Hup.
    cbn zeta in Hi, Hup. rewrite Hold in Hup.
    subst clamped. fold product_id quantity in Hi |- *.
    destruct (upsert_item _ _ _ _ _ _) as [[final_quantity final_price] d3].
    cbn [fst snd] in *. destruct Hup as [[= -> ->] Hline].
    destruct (available_stock <? ci_quantity old + quantity) eqn:Hcmp; [|lia].
    split; [|split].
    + rewrite (add_to_cart_around user_id items1 item items2 vip now w st1 _ st2
                 Hid H1 Hi H2).
      cbn [ls_world ls_added ls_failed app].
      rewrite bool_decide_eq_false_2; [done|].
      rewrite length_app. cbn [length]. lia.
    + by rewrite (process_items_snoc _ _ _ _ _ _ _ _ H1 Hi).
    + unfold update_item. cbn. by rewrite lookup_alter, decide_True, Hline.
Qed.

(** What the iteration on an item without the [quantity] key leaves in
    the lists. *)
Lemma process_item_without_quantity (cart_id : Z) (vip : bool) (now : Z)
    (w1 : world) (item : request_item) (sti : loop_state) :
  it_quantity item = None →
  process_item cart_id vip now (on w1) item = Some sti →
  Forall (λ f, failed_error f ≠ "Quantity must be positive") (ls_failed sti)
  ∧ Forall (λ a, added_quantity a = 1) (ls_added sti).
Proof.
  intros Hq. unfold process_item. rewrite Hq. cbn [default from_option].
  destruct (String.eqb _ _); [intros [= <-]; cbn; by repeat constructor|].
  cbn [Z.leb Z.compare].
  destruct (search _ _ _ _ _) as [product|];
    [|intros [= <-]; cbn; by repeat constructor].
  cbn [_get_stock_quantity fst snd].
  destruct (as_int _) as [available_stock|]; [|discriminate].
  cbn [mbind option_bind].
  destruct (available_stock <? 1); [intros [= <-]; cbn; by repeat constructor|].
  destruct (generate_price _ _ _) as [unit_price w2].
  destruct (upsert_item _ _ _ _ _ _) as [[final_quantity final_price] d3].
  destruct (available_stock <? final_quantity); intros [= <-]; cbn;
    by repeat constructor.
Qed.

(** C10. An item without the [quantity] key is an item with quantity 1:
    once the cart is there, a call on a request with such an item returns
    what the call returns, and leaves the world it leaves, when the item
    has the key with the value 1.  Whatever the iteration on such an
    item puts in the lists of the call, no failure of it has the reason
    "Quantity must be positive" and every entry it adds has quantity 1.
    When its name resolves to a product of which at least one unit is in
    stock, the item goes through the add flow: the call returns an entry
    for it in [added_items], at the place of the item, with quantity 1,
    and the line of the product is written with what it held plus 1, cut
    down to the stock; the only failure it can record is the one of the
    cut. *)
Theorem missing_quantity_is_quantity_one (user_id : string)
    (items1 : list request_item) (item : request_item)
    (items2 : list request_item) (vip : bool) (now : Z) (w : world) :
  let cart_id := cart_of user_id now w in
  it_quantity item = None →
  cart_id ≠ 0 →
  add_to_cart user_id (items1 ++ item :: items2) vip now w
  = add_to_cart user_id
      (items1
         ++ mk_request_item (it_product_name item) (Some 1) (it_category item)
              (it_is_organic item)
         :: items2)
      vip now w
  ∧ (∀ st1 sti st2,
       process_items cart_id vip now items1 (start user_id now w) = Some st1 →
       process_item cart_id vip now (on (ls_world st1)) item = Some sti →
       process_items cart_id vip now items2 (on (ls_world sti)) = Some st2 →
       add_to_cart user_id (items1 ++ item :: items2) vip now w
       = answer user_id
           (bool_decide
              (length (ls_failed st1 ++ ls_failed sti ++ ls_failed st2) = 0%nat))
           (ls_added st1 ++ ls_added sti ++ ls_added st2)
           (ls_failed st1 ++ ls_failed sti ++ ls_failed st2) st2
       ∧ Forall (λ f, failed_error f ≠ "Quantity must be positive")
           (ls_failed sti)
       ∧ Forall (λ a, added_quantity a = 1) (ls_added sti))
  ∧ (∀ st1 product available_stock st2,
       let w1 := ls_world st1 in
       let product_id := f_product_id product in
       let drawn :=
         _generate_price (f_category product) (random (rng_draws w1)) in
       let held :=
         match line_of (db w1) cart_id product_id with
         | Some old => ci_quantity old
         | None => 0
         end in
       let unit_price :=
         match line_of (db w1) cart_id product_id with
         | Some old => ci_unit_price old
         | None => drawn
         end in
       let after :=
         stored (db w1) cart_id product_id 1 drawn available_stock now in
       let entry :=
         mk_added_item product_id (f_product_name product) 1 unit_price
           (unit_price * Z.min (held + 1) available_stock) in
       let failures :=
         if available_stock <? held + 1 then
           [mk_failed_item (f_product_name product) (Some product_id) (Some 1)
              (Some available_stock)
              ("Reduced quantity to available stock ("
                 ++ str_int available_stock ++ ")")%string]
         else [] in
       process_items cart_id vip now items1 (start user_id now w) = Some st1 →
       name_of item ≠ "" →
       search (db w1) (name_of item) vip (it_category item) (it_is_organic item)
         = Some product →
       stock_of product_id w1 = Some available_stock →
       1 ≤ available_stock →
       process_items cart_id vip now items2 (on (written w1 after)) = Some st2 →
       add_to_cart user_id (items1 ++ item :: items2) vip now w
       = answer user_id
           (bool_decide
              (length (ls_failed st1 ++ failures ++ ls_failed st2) = 0%nat))
           (ls_added st1 ++ entry :: ls_added st2)
           (ls_failed st1 ++ failures ++ ls_failed st2) st2
       ∧ ∃ line,
           line_of after cart_id product_id = Some line
           ∧ ci_quantity line = Z.min (held + 1) available_stock).
Proof.
  intros cart_id Hq Hid. split; [|split].
  - unfold add_to_cart. fold cart_id.
    destruct (ensure_cart (db w) user_id now) as [c d1]. cbn [fst snd] in *.
    subst cart_id. destruct (c =? 0) eqn:Hz; [lia|].
    rewrite !process_items_app.
    destruct (process_items c vip now items1 _) as [st1|]; [|done].
    cbn [mbind option_bind]. rewrite !process_items_cons.
    assert (process_item c vip now st1 item
            = process_item c vip now st1
                (mk_request_item (it_product_name item) (Some 1)
                   (it_category item) (it_is_organic item))) as ->; [|done].
    unfold process_item. by rewrite Hq.
  - intros st1 sti st2 H1 Hi H2. split.
    + exact (add_to_cart_around user_id items1 item items2 vip now w st1 sti st2
               Hid H1 Hi H2).
    + exact (process_item_without_quantity cart_id vip now (ls_world st1) item
               sti Hq Hi).
  - intros st1 product available_stock st2 w1 product_id drawn held unit_price
      after entry failures H1 Hname Hsearch Hstock Havail H2.
    assert (quantity_of item = 1) as Hone by (by rewrite Hq).
    pose proof (process_item_written cart_id vip now w1 item product
      available_stock Hname Hsearch Hstock) as Hi.
    rewrite Hone in Hi. specialize (Hi ltac:(lia)). cbn zeta in Hi.
    pose proof (stored_spec (db w1) cart_id product_id 1 drawn available_stock
      now) as (_ & _ & _ & line & Hline & Hqty).
    pose proof (upsert_item_line (db w1) cart_id product_id 1 drawn now) as Hup.
    cbn zeta in Hup.
    assert (process_item cart_id vip now (on w1) item
            = Some (mk_loop_state (written w1 after) [entry] failures)) as Hi'.
    { rewrite Hi. subst entry failures held unit_price after.
      fold product_id drawn.
      destruct (line_of (db w1) cart_id product_id) as [old|];
        destruct Hup as [-> _]; cbn [fst snd].
      - destruct (available_stock <? ci_quantity old + 1) eqn:Hcmp;
          repeat f_equal; lia.
      - destruct (available_stock <? 1) eqn:Hcmp; [lia|].
        destruct (available_stock <? 0 + 1) eqn:Hcmp'; [lia|].
        repeat f_equal; lia. }
    split.
    + exact (add_to_cart_around user_id items1 item items2 vip now w st1 _ st2
               Hid H1 Hi' H2).
    + exists line. split; [exact Hline|]. rewrite Hqty. subst held.
      destruct (line_of (db w1) cart_id product_id); [done|].
      by rewrite Z.add_0_l.
Qed.

(** X15. An item whose name is missing, empty or white space only is
    rejected with "Product name is required"; an item with another name,
    of characters below U+0080, and a quantity of zero or less is
    rejected with "Quantity must be positive".  The name is checked
    first.  Neither rejection touches the world - no search, no stock
    request, no draw and no write: the loop goes on from the world the
    items before left, and the call returns [success] false and the
    failure in [failed_items], at the place of the item. *)
Theorem invalid_item_is_rejected (user_id : string)
    (items1 : list request_item) (item : request_item)
    (items2 : list request_item) (vip : bool) (now : Z) (w : world)
    (st1 st2 : loop_state) :
  let cart_id := cart_of user_id now w in
  let name := default "" (it_product_name item) in
  cart_id ≠ 0 →
  process_items cart_id vip now items1 (start user_id now w) = Some st1 →
  process_items cart_id vip now items2 (on (ls_world st1)) = Some st2 →
  (blank name = true →
   add_to_cart user_id (items1 ++ item :: items2) vip now w
   = answer user_id false (ls_added st1 ++ ls_added st2)
       (ls_failed st1
          ++ mk_failed_item "" None None None "Product name is required"
          :: ls_failed st2)
       st2)
  ∧ (isascii name = true → blank name = false → quantity_of item ≤ 0 →
     add_to_cart user_id (items1 ++ item :: items2) vip now w
     = answer user_id false (ls_added st1 ++ ls_added st2)
         (ls_failed st1
            ++ mk_failed_item (strip name) None None None
                 "Quantity must be positive"
            :: ls_failed st2)
         st2).
Proof.
  intros cart_id name Hid H1 H2.
  assert (∀ f,
    process_item cart_id vip now (on (ls_world st1)) item
      = Some (mk_loop_state (ls_world st1) [] [f]) →
    add_to_cart user_id (items1 ++ item :: items2) vip now w
    = answer user_id false (ls_added st1 ++ ls_added st2)
        (ls_failed st1 ++ f :: ls_failed st2) st2) as Hcall.
  { intros f Hi.
    rewrite (add_to_cart_around user_id items1 item items2 vip now w st1 _ st2
               Hid H1 Hi H2).
    cbn [ls_world ls_added ls_failed app].
    rewrite bool_decide_eq_false_2; [done|].
    rewrite length_app. cbn [length]. lia. }
  split.
  - intros Hb. apply Hcall.
    by rewrite (process_item_blank SIMILARITY stock_api random cart_id vip now
                  _ item Hb).
  - intros _ Hb Hq. apply Hcall. unfold process_item.
    destruct (String.eqb (name_of item) "") eqn:Hname.
    + apply String.eqb_eq, strip_empty_iff in Hname. subst name. congruence.
    + by destruct (quantity_of item <=? 0) eqn:Hle; [|lia].
Qed.

(** X16. When no product of the catalog that the caller may see has a
    similarity to the name above 0.3, an item with a name of characters
    below U+0080 that is not white space only, and with a positive
    quantity, fails with "Product not found" and its requested quantity.
    The world is untouched - no stock request is sent: the loop goes on
    from the world the items before left, and the call returns [success]
    false and the failure in [failed_items], at the place of the item.
    A restricted product is "not found" for a caller who is not VIP. *)
Theorem unmatched_item_is_not_found (user_id : string)
    (items1 : list request_item) (item : request_item)
    (items2 : list request_item) (vip : bool) (now : Z) (w : world)
    (st1 st2 : loop_state) :
  let cart_id := cart_of user_id now w in
  let name := default "" (it_product_name item) in
  cart_id ≠ 0 →
  process_items cart_id vip now items1 (start user_id now w) = Some st1 →
  process_items cart_id vip now items2 (on (ls_world st1)) = Some st2 →
  isascii name = true →
  blank name = false →
  0 < quantity_of item →
  (∀ p, p ∈ products (db w) →
     prod_is_vip p = false ∨ vip = true →
     ¬ (3 # 10 < SIMILARITY (prod_name p) (strip name))%Q) →
  add_to_cart user_id (items1 ++ item :: items2) vip now w
  = answer user_id false (ls_added st1 ++ ls_added st2)
      (ls_failed st1
         ++ mk_failed_item (strip name) None (Some (quantity_of item)) None
              "Product not found"
         :: ls_failed st2)
      st2.
Proof.
  intros cart_id name Hid H1 H2 _ Hb Hq Hnone.
  assert (products (db (ls_world st1)) = products (db w)) as Hprods.
  { apply process_items_frame in H1 as (-> & _). cbn.
    apply (ensure_cart_spec (db w) user_id now). }
  assert (process_item cart_id vip now (on (ls_world st1)) item
          = Some (mk_loop_state (ls_world st1) []
                    [mk_failed_item (strip name) None (Some (quantity_of item))
                       None "Product not found"])) as Hi.
  { unfold process_item. cbn [ls_world].
    destruct (String.eqb (name_of item) "") eqn:Hname.
    { apply String.eqb_eq, strip_empty_iff in Hname. subst name. congruence. }
    destruct (quantity_of item <=? 0) eqn:Hle; [lia|].
    assert (search (db (ls_world st1)) (name_of item) vip (it_category item)
              (it_is_organic item) = None) as ->; [|done].
    unfold _search_product. apply order_by_sim_None.
    destruct (List.map _ _) as [|r rows] eqn:Hrows; [done|].
    assert (r ∈ List.map (search_select SIMILARITY (name_of item))
              (List.filter (search_where SIMILARITY (name_of item) vip)
                 (products (db (ls_world st1))))) as Hin
      by (rewrite Hrows; left).
    apply search_rows_elem in Hin as (p & Hp & [Hvis Hsim]%search_where_spec & _).
    rewrite Hprods in Hp. by destruct (Hnone p Hp Hvis). }
  rewrite (add_to_cart_around user_id items1 item items2 vip now w st1 _ st2
             Hid H1 Hi H2).
  cbn [ls_world ls_added ls_failed app].
  rewrite bool_decide_eq_false_2; [done|].
  rewrite length_app. cbn [length]. lia.
Qed.

End AddCall.

(** ** Runs of calls with an item among others *)

Section CallRuns.

Import Example.

Local Abbreviation sim := Trgm.similarity.

Local Abbreviation nameless :=
  (mk_request_item None (Some 2) None None).

(** The product the search returns for "Tomatoe" in the example. *)
Local Abbreviation found_tomato :=
  (mk_found 7%N "Tomato" (Some "Unknown") false (sim "Tomato" "Tomatoe")).

(** Where the loop stands after Alice, with two tomatoes in her cart,
    asked for three more at time 200. *)
Local Abbreviation after_three :=
  (mk_loop_state
     (mk_world
        (mk_database catalog {["alice" := mk_cart 1 50 200]}
           {[(1, 7%N) := mk_cart_item 5 950 50 200]} 1)
        1 1)
     [mk_added_item 7%N "Tomato" 3 950 4750] []).

(** C7 fails on the code.  Alice's cart holds two tomatoes at 9.50 and
    ten are in stock; she asks for nine more.  The line is cut down to
    ten and the item is in both lists; but its entry in [added_items]
    reports the quantity 9 - not the 10 of the line as it is stored, nor
    the 8 by which the line grew.  Its total alone, 95.00, is that of the
    line as it is stored. *)
Lemma clamped_entry_reports_requested_quantity :
  ∃ a f,
    fst <$> add_to_cart sim stock_10 draw "alice" [tomatoe (Some 9)] false
              200 stocked
    = Some (Added false [a] [f] 9500 10)
    ∧ (λ r, shopping_cart_items (db r.2) !! (1, 7%N))
        <$> add_to_cart sim stock_10 draw "alice" [tomatoe (Some 9)] false
              200 stocked
      = Some (Some (mk_cart_item 10 950 50 200))
    ∧ failed_error f = "Reduced quantity to available stock (10)"
    ∧ added_quantity a = 9
    ∧ added_quantity a ≠ 10
    ∧ added_quantity a ≠ 10 - 2
    ∧ added_total_price a = 950 * 10
    ∧ added_total_price a ≠ added_unit_price a * added_quantity a.
Proof.
  exists (mk_added_item 7%N "Tomato" 9 950 9500),
    (mk_failed_item "Tomato" (Some 7%N) (Some 9) (Some 10)
       "Reduced quantity to available stock (10)").
  split; [vm_compute; reflexivity|]. split; [vm_compute; reflexivity|].
  cbn. repeat split; lia.
Qed.

Lemma over_stock_item_is_refused_and_reported_witness :
  fst <$> add_to_cart sim stock_10 draw "alice"
            [tomatoe (Some 3); tomatoe (Some 11); tomatoe (Some 1)] false 200
            stocked
  = Some (Added false
            [mk_added_item 7%N "Tomato" 3 950 4750;
             mk_added_item 7%N "Tomato" 1 950 5700]
            [mk_failed_item "Tomato" (Some 7%N) (Some 11) (Some 10)
               "Insufficient stock (only 10 available)"]
            5700 6)
  ∧ ∃ res w' line,
      add_to_cart sim stock_10 draw "alice"
        [tomatoe (Some 3); tomatoe (Some 9)] false 200 stocked
      = Some (res, w')
      ∧ shopping_cart_items (db w') !! (1, 7%N) = Some line
      ∧ ci_quantity line = 10.
Proof.
  split.
  - destruct (over_stock_item_is_refused_and_reported sim stock_10 draw "alice"
                [tomatoe (Some 3)] (tomatoe (Some 11)) [tomatoe (Some 1)]
                false 200 stocked after_three found_tomato 10)
      as [Hover _].
    + vm_compute. discriminate.
    + vm_compute. reflexivity.
    + vm_compute. discriminate.
    + reflexivity.
    + vm_compute. reflexivity.
    + vm_compute. reflexivity.
    + destruct Hover as [_ Hcall]; [reflexivity|].
      change [tomatoe (Some 3); tomatoe (Some 11); tomatoe (Some 1)]
        with ([tomatoe (Some 3)] ++ tomatoe (Some 11) :: [tomatoe (Some 1)]).
      rewrite (Hcall
        (mk_loop_state
           (mk_world
              (mk_database catalog {["alice" := mk_cart 1 50 200]}
                 {[(1, 7%N) := mk_cart_item 6 950 50 200]} 1)
              3 2)
           [mk_added_item 7%N "Tomato" 1 950 5700] []));
        vm_compute; reflexivity.
  - destruct (over_stock_item_is_refused_and_reported sim stock_10 draw "alice"
                [tomatoe (Some 3)] (tomatoe (Some 9)) [] false 200 stocked
                after_three found_tomato 10)
      as [_ Hin].
    + vm_compute. discriminate.
    + vm_compute. reflexivity.
    + vm_compute. discriminate.
    + reflexivity.
    + vm_compute. reflexivity.
    + vm_compute. reflexivity.
    + destruct Hin as (res & w' & line & Hrun & Hline & Hq & _);
        [vm_compute; discriminate|].
      exists res, w', line. split; [exact Hrun|]. split; [exact Hline|].
      exact Hq.
Defined.

Lemma success_iff_no_failures_and_clamped_item_in_both_lists_witness :
  fst <$> add_to_cart sim stock_10 draw "alice"
            [tomatoe (Some 3); tomatoe (Some 9); tomatoe (Some 1)] false 200
            stocked
  = Some (Added false
            [mk_added_item 7%N "Tomato" 3 950 4750;
             mk_added_item 7%N "Tomato" 9 950 9500;
             mk_added_item 7%N "Tomato" 1 950 9500]
            [mk_failed_item "Tomato" (Some 7%N) (Some 9) (Some 10)
               "Reduced quantity to available stock (10)";
             mk_failed_item "Tomato" (Some 7%N) (Some 1) (Some 10)
               "Reduced quantity to available stock (10)"]
            9500 10).
Proof.
  destruct (proj2 (success_iff_no_failures_and_clamped_item_in_both_lists sim
                     stock_10 draw)
              "alice" [tomatoe (Some 3)] (tomatoe (Some 9)) [tomatoe (Some 1)]
              false 200 stocked after_three found_tomato 10
              (mk_cart_item 5 950 50 200)
              (mk_loop_state
                 (mk_world
                    (mk_database catalog {["alice" := mk_cart 1 50 200]}
                       {[(1, 7%N) := mk_cart_item 10 950 50 200]} 1)
                    3 3)
                 [mk_added_item 7%N "Tomato" 1 950 9500]
                 [mk_failed_item "Tomato" (Some 7%N) (Some 1) (Some 10)
                    "Reduced quantity to available stock (10)"]))
    as (Hcall & _ & _).
  - vm_compute. discriminate.
  - vm_compute. reflexivity.
  - vm_compute. discriminate.
  - vm_compute. reflexivity.
  - vm_compute. reflexivity.
  - split; [reflexivity | vm_compute; discriminate].
  - vm_compute. reflexivity.
  - reflexivity.
  - vm_compute. reflexivity.
  - change [tomatoe (Some 3); tomatoe (Some 9); tomatoe (Some 1)]
      with ([tomatoe (Some 3)] ++ tomatoe (Some 9) :: [tomatoe (Some 1)]).
    rewrite Hcall. vm_compute. reflexivity.
Defined.

Lemma missing_quantity_is_quantity_one_witness :
  add_to_cart sim stock_10 draw "alice"
    [tomatoe (Some 3); tomatoe None; tomatoe (Some 2)] false 200 stocked
  = add_to_cart sim stock_10 draw "alice"
      [tomatoe (Some 3); tomatoe (Some 1); tomatoe (Some 2)] false 200 stocked
  ∧ fst <$> add_to_cart sim stock_10 draw "alice"
              [tomatoe (Some 3); tomatoe None; tomatoe (Some 2)] false 200
              stocked
    = Some (Added true
              [mk_added_item 7%N "Tomato" 3 950 4750;
               mk_added_item 7%N "Tomato" 1 950 5700;
               mk_added_item 7%N "Tomato" 2 950 7600]
              [] 7600 8).
Proof.
  destruct (missing_quantity_is_quantity_one sim stock_10 draw "alice"
              [tomatoe (Some 3)] (tomatoe None) [tomatoe (Some 2)] false 200
              stocked)
    as (Hsame & _ & Hflow).
  - reflexivity.
  - vm_compute. discriminate.
  - split; [exact Hsame|].
    destruct (Hflow after_three found_tomato 10
                (mk_loop_state
                   (mk_world
                      (mk_database catalog {["alice" := mk_cart 1 50 200]}
                         {[(1, 7%N) := mk_cart_item 8 950 50 200]} 1)
                      3 3)
                   [mk_added_item 7%N "Tomato" 2 950 7600] []))
      as [Hcall _].
    + vm_compute. reflexivity.
    + vm_compute. discriminate.
    + vm_compute. reflexivity.
    + vm_compute. reflexivity.
    + vm_compute. discriminate.
    + vm_compute. reflexivity.
    + change [tomatoe (Some 3); tomatoe None; tomatoe (Some 2)]
        with ([tomatoe (Some 3)] ++ tomatoe None :: [tomatoe (Some 2)]).
      rewrite Hcall. vm_compute. reflexivity.
Defined.

Lemma invalid_item_is_rejected_witness :
  fst <$> add_to_cart sim stock_10 draw "alice"
            [tomatoe (Some 3); nameless; tomatoe (Some 1)] false 200 stocked
  = Some (Added false
            [mk_added_item 7%N "Tomato" 3 950 4750;
             mk_added_item 7%N "Tomato" 1 950 5700]
            [mk_failed_item "" None None None "Product name is required"]
            5700 6)
  ∧ fst <$> add_to_cart sim stock_10 draw "alice"
              [tomatoe (Some 3); tomatoe (Some 0); tomatoe (Some 1)] false 200
              stocked
    = Some (Added false
              [mk_added_item 7%N "Tomato" 3 950 4750;
               mk_added_item 7%N "Tomato" 1 950 5700]
              [mk_failed_item "Tomatoe" None None None
                 "Quantity must be positive"]
              5700 6).
Proof.
  split.
  - destruct (invalid_item_is_rejected sim stock_10 draw "alice"
                [tomatoe (Some 3)] nameless [tomatoe (Some 1)] false 200 stocked
                after_three
                (mk_loop_state
                   (mk_world
                      (mk_database catalog {["alice" := mk_cart 1 50 200]}
                         {[(1, 7%N) := mk_cart_item 6 950 50 200]} 1)
                      2 2)
                   [mk_added_item 7%N "Tomato" 1 950 5700] []))
      as [Hname _].
    + vm_compute. discriminate.
    + vm_compute. reflexivity.
    + vm_compute. reflexivity.
    + change [tomatoe (Some 3); nameless; tomatoe (Some 1)]
        with ([tomatoe (Some 3)] ++ nameless :: [tomatoe (Some 1)]).
      rewrite Hname; vm_compute; reflexivity.
  - destruct (invalid_item_is_rejected sim stock_10 draw "alice"
                [tomatoe (Some 3)] (tomatoe (Some 0)) [tomatoe (Some 1)] false
                200 stocked after_three
                (mk_loop_state
                   (mk_world
                      (mk_database catalog {["alice" := mk_cart 1 50 200]}
                         {[(1, 7%N) := mk_cart_item 6 950 50 200]} 1)
                      2 2)
                   [mk_added_item 7%N "Tomato" 1 950 5700] []))
      as [_ Hquantity].
    + vm_compute. discriminate.
    + vm_compute. reflexivity.
    + vm_compute. reflexivity.
    + change [tomatoe (Some 3); tomatoe (Some 0); tomatoe (Some 1)]
        with ([tomatoe (Some 3)] ++ tomatoe (Some 0) :: [tomatoe (Some 1)]).
      rewrite Hquantity; vm_compute; (reflexivity || discriminate).
Defined.

Lemma unmatched_item_is_not_found_witness :
  fst <$> add_to_cart sim stock_10 draw "alice"
            [tomatoe (Some 3); mk_request_item (Some "Caviar") (Some 3) None None;
             tomatoe (Some 1)] false 200 stocked
  = Some (Added false
            [mk_added_item 7%N "Tomato" 3 950 4750;
             mk_added_item 7%N "Tomato" 1 950 5700]
            [mk_failed_item "Caviar" None (Some 3) None "Product not found"]
            5700 6).
Proof.
  change [tomatoe (Some 3); mk_request_item (Some "Caviar") (Some 3) None None;
          tomatoe (Some 1)]
    with ([tomatoe (Some 3)]
            ++ mk_request_item (Some "Caviar") (Some 3) None None
            :: [tomatoe (Some 1)]).
  rewrite (unmatched_item_is_not_found sim stock_10 draw "alice"
             [tomatoe (Some 3)]
             (mk_request_item (Some "Caviar") (Some 3) None None)
             [tomatoe (Some 1)] false 200 stocked after_three
             (mk_loop_state
                (mk_world
                   (mk_database catalog {["alice" := mk_cart 1 50 200]}
                      {[(1, 7%N) := mk_cart_item 6 950 50 200]} 1)
                   2 2)
                [mk_added_item 7%N "Tomato" 1 950 5700] [])).
  - vm_compute. reflexivity.
  - vm_compute. discriminate.
  - vm_compute. reflexivity.
  - vm_compute. reflexivity.
  - reflexivity.
  - reflexivity.
  - reflexivity.
  - intros p [->|Hp]%elem_of_cons [Hvis|Hvip]; try discriminate.
    apply list_elem_of_singleton in Hp as ->. discriminate Hvis.
Defined.

End CallRuns.

(** ** [_generate_price] *)

Lemma ranges_get_elem (key : string) (table : list (string * (Q * Q)))
    (default : Q * Q) :
  ranges_get key table default ∈ default :: table.*2.
Proof.
  induction table as [|[k r] table IH]; cbn; [by left|].
  destruct (String.eqb k key); [right; by left|].
  apply elem_of_cons in IH as [->|IH]; [by left | by do 2 right].
Qed.

Lemma uniform_between (lo hi u : Q) :
  (lo <= hi)%Q → (0 <= u)%Q → (u < 1)%Q →
  (lo <= uniform lo hi u)%Q ∧ (uniform lo hi u <= hi)%Q.
Proof. intros Hr H0 H1. unfold uniform. split; nra. Qed.

Lemma price_ranges_ordered :
  Forall (λ r : Q * Q,
            (r.1 <= r.2)%Q
            ∧ 100 ≤ Qfloor (r.1 * 100) ∧ Qceiling (r.2 * 100) ≤ 3000)
    (DEFAULT_PRICE_RANGE :: PRICE_RANGES.*2).
Proof.
  repeat (constructor; [split; [|split]; vm_compute; discriminate|]).
  constructor.
Qed.

(** X26. For every category and every draw of the random source in
    [0, 1), the price is a whole number of cents within the range of the
    category, both ends included (rounding can reach the upper end): the
    range of the table for the ten categories it names, the default
    range for any other category and for none.  Every price lies
    between 1.00 and 30.00. *)
Theorem generated_price_within_range (category : option string) (u : Q) :
  (0 <= u)%Q ∧ (u < 1)%Q →
  let r := ranges_get (default "" category) PRICE_RANGES DEFAULT_PRICE_RANGE in
  Qfloor (r.1 * 100) ≤ _generate_price category u ≤ Qceiling (r.2 * 100)
  ∧ 100 ≤ _generate_price category u ≤ 3000.
Proof.
  intros [H0 H1]. unfold _generate_price. cbn zeta.
  pose proof (ranges_get_elem (default "" category) PRICE_RANGES
    DEFAULT_PRICE_RANGE) as Hin.
  pose proof price_ranges_ordered as Hall. rewrite Forall_forall in Hall.
  specialize (Hall _ Hin).
  destruct (ranges_get _ _ _) as [lo hi]. cbn [fst snd] in *.
  destruct Hall as (Hr & Hlo & Hhi).
  destruct (uniform_between lo hi u Hr H0 H1) as [Hx0 Hx1].
  assert (Qfloor (lo * 100) ≤ round2 (uniform lo hi u) ≤ Qceiling (hi * 100))
    as Hb; [|lia].
  unfold round2. apply round_half_even_bounds.
  - eapply Qle_trans; [apply Qfloor_le|]. lra.
  - eapply Qle_trans; [|apply Qle_ceiling]. lra.
Qed.

(** ** [__init__] *)

Lemma rstrip_slash_app (s : string) :
  rstrip_slash (s ++ "/")%string = rstrip_slash s.
Proof.
  induction s as [|c s IH]; [done|].
  change (rstrip_slash (String c (s ++ "/")%string) = rstrip_slash (String c s)).
  cbn [rstrip_slash]. by rewrite IH.
Qed.

Lemma rstrip_slash_no_trailing (s t : string) :
  rstrip_slash s ≠ (t ++ "/")%string.
Proof.
  revert t. induction s as [|c s IH]; intros t; cbn.
  - by destruct t.
  - destruct (rstrip_slash s) as [|a r] eqn:Hs.
    + destruct (Ascii.eqb c "/") eqn:Hc; [by destruct t|].
      destruct t as [|c' t']; cbn.
      * intros [= ->]. by rewrite Ascii.eqb_refl in Hc.
      * intros [= _ Ht]. by destruct t'.
    + destruct t as [|c' t']; cbn; [done|].
      intros [= _ Ht]. by apply (IH t').
Qed.

Lemma rstrip_slash_id (s : string) :
  (∀ t, s ≠ (t ++ "/")%string) → rstrip_slash s = s.
Proof.
  induction s as [|c s IH]; intros Hs; [done|]. cbn.
  rewrite IH.
  - destruct s as [|a r]; [|done].
    destruct (Ascii.eqb c "/") eqn:Hc; [|done].
    apply Ascii.eqb_eq in Hc as ->. by destruct (Hs "").
  - intros t ->. by apply (Hs (String c t)).
Qed.

(** X27. The stock URL does not depend on trailing slashes of the
    configured base URL: the base is stored without any, so a base given
    with one more slash yields the same request URL, and a base without a
    trailing slash is stored as it is. *)
Theorem trailing_slashes_do_not_matter (env : gmap string string)
    (stock_api_url : string) :
  stock_url (__init__ env (stock_api_url ++ "/")%string)
  = stock_url (__init__ env stock_api_url)
  ∧ (∀ t, _stock_api_url (__init__ env stock_api_url) ≠ (t ++ "/")%string)
  ∧ ((∀ t, stock_api_url ≠ (t ++ "/")%string) →
     stock_url (__init__ env stock_api_url) = (stock_api_url ++ "/stock")%string).
Proof.
  unfold stock_url, __init__. cbn [_stock_api_url]. split; [|split].
  - by rewrite rstrip_slash_app.
  - intros t. apply rstrip_slash_no_trailing.
  - intros Hs. by rewrite rstrip_slash_id.
Qed.

(** ** Runs of the further properties on the example *)

Section MoreRuns.

Import Example.

Local Abbreviation sim := Trgm.similarity.

Local Abbreviation nameless :=
  (mk_request_item None (Some 2) None None).

Lemma get_cart_of_empty_cart_witness :
  get_cart stock_10 "alice" emptied = (mk_cart_summary [] 0 0 "EUR", emptied).
Proof.
  apply (get_cart_of_empty_cart stock_10 "alice" emptied).
  intros sc product_id _. apply lookup_empty.
Defined.

Lemma update_rejects_before_any_effect_witness :
  ∃ error,
    update_cart_item stock_10 parse "alice" "not-a-uuid" 3 200 stocked
    = Some (UpdateError error None, stocked)
    ∧ error = "Invalid product ID".
Proof.
  destruct (update_rejects_before_any_effect stock_10 parse "alice" "not-a-uuid"
              3 200 stocked) as (error & Hrun & Herr & _).
  - left. reflexivity.
  - exists error. split; [exact Hrun | apply Herr; reflexivity].
Defined.

Lemma update_insufficient_stock_witness :
  ∃ w',
    update_cart_item stock_10 parse "alice" tomato_id 11 200 stocked
    = Some (UpdateError "Insufficient stock (only 10 available)" (Some 10), w')
    ∧ db w' = db stocked.
Proof.
  destruct (update_insufficient_stock stock_10 parse "alice" tomato_id 7%N
              11 10 200 stocked) as (w' & Hrun & Hdb & _).
  - reflexivity.
  - lia.
  - reflexivity.
  - lia.
  - exists w'. split; [exact Hrun | exact Hdb].
Defined.

Lemma update_sets_quantity_witness :
  ∃ cart w',
    update_cart_item stock_10 parse "alice" tomato_id 4 200 stocked
    = Some (Updated cart, w')
    ∧ shopping_cart_items (db w') !! (1, 7%N) = Some (mk_cart_item 4 950 50 200).
Proof.
  destruct (update_sets_quantity stock_10 parse "alice" tomato_id 7%N 4 10 200
              stocked alice_cart tomato_line) as (cart & w' & Hrun & Hline & _).
  - reflexivity.
  - reflexivity.
  - reflexivity.
  - lia.
  - reflexivity.
  - exists cart, w'. split; [exact Hrun | exact Hline].
Defined.

Lemma update_without_cart_witness :
  ∃ w',
    update_cart_item stock_10 parse "alice" tomato_id 0 200 fresh
    = Some (UpdateError "Cart not found" None, w')
    ∧ db w' = db fresh.
Proof.
  apply (update_without_cart stock_10 parse "alice" tomato_id 7%N 0 0 200 fresh).
  - reflexivity.
  - reflexivity.
  - left. reflexivity.
Defined.

Lemma update_never_creates_a_line_witness :
  ∃ res w',
    update_cart_item stock_10 parse "alice" tomato_id 4 200 emptied
    = Some (res, w')
    ∧ (∀ key line', shopping_cart_items (db w') !! key = Some line' →
         ∃ line, shopping_cart_items (db emptied) !! key = Some line
           ∧ ci_unit_price line' = ci_unit_price line
           ∧ ci_added_at line' = ci_added_at line).
Proof.
  destruct (update_cart_item stock_10 parse "alice" tomato_id 4 200 emptied)
    as [[res w']|] eqn:Hrun; [|vm_compute in Hrun; discriminate].
  exists res, w'. split; [reflexivity|].
  exact (proj1 (update_never_creates_a_line stock_10 parse "alice" tomato_id 4
                  200 emptied w' res Hrun)).
Defined.

Lemma remove_absent_line_is_noop_witness :
  ∃ cart w',
    remove_from_cart stock_10 parse "alice" tomato_id 200 emptied
    = Some (Updated cart, w')
    ∧ db w' = db emptied.
Proof.
  apply (remove_absent_line_is_noop stock_10 parse "alice" tomato_id 7%N 200
           emptied alice_cart); reflexivity.
Defined.

Lemma update_and_clear_keep_lines_positive_witness :
  positive_lines (db (clear_cart "alice" stocked).2).
Proof.
  apply (update_and_clear_keep_lines_positive stock_10 parse "alice" stocked).
  apply map_Forall_singleton. reflexivity.
Defined.

Lemma add_nothing_witness :
  ∃ w',
    add_to_cart sim stock_10 draw "alice" [] false 200 stocked
    = Some (Added true [] []
              (sum_of row_total_price (select_cart (db w') "alice"))
              (sum_of row_quantity (select_cart (db w') "alice")), w')
    ∧ shopping_cart_items (db w') = shopping_cart_items (db stocked).
Proof.
  destruct (add_nothing sim stock_10 draw "alice" false 200 stocked)
    as (w' & Hrun & _ & Hitems & _).
  - vm_compute. discriminate.
  - exists w'. split; [exact Hrun | exact Hitems].
Defined.

Lemma add_to_cart_ensures_cart_witness :
  ∃ res w' sc',
    add_to_cart sim stock_10 draw "alice" [tomatoe (Some 5)] false 100 fresh
    = Some (res, w')
    ∧ shopping_carts (db w') !! "alice" = Some sc'
    ∧ c_updated_at sc' = 100.
Proof.
  destruct (add_to_cart sim stock_10 draw "alice" [tomatoe (Some 5)] false 100
              fresh) as [[res w']|] eqn:Hrun; [|vm_compute in Hrun; discriminate].
  destruct (add_to_cart_ensures_cart sim stock_10 draw "alice"
              [tomatoe (Some 5)] false 100 fresh w' res Hrun)
    as ((sc' & Hsc & Hupd & _) & _).
  exists res, w', sc'. split; [reflexivity|]. split; [exact Hsc | exact Hupd].
Defined.

Lemma every_item_is_reported_witness :
  ∃ success added failed cart_total total_items w',
    add_to_cart sim stock_10 draw "alice"
      [tomatoe (Some 3); nameless; tomatoe (Some 9)] false 200 stocked
    = Some (Added success added failed cart_total total_items, w')
    ∧ (length added ≤ 3 ∧ length failed ≤ 3 ∧ 3 ≤ length added + length failed)%nat.
Proof.
  destruct (add_to_cart sim stock_10 draw "alice"
              [tomatoe (Some 3); nameless; tomatoe (Some 9)] false 200 stocked)
    as [[[error echoed|success added failed cart_total total_items] w']|] eqn:Hrun;
    [vm_compute in Hrun; discriminate| |vm_compute in Hrun; discriminate].
  destruct (every_item_is_reported sim stock_10 draw "alice" _ false 200 stocked
              w' success added failed cart_total total_items Hrun)
    as (Ha & Hf & Hall & _).
  exists success, added, failed, cart_total, total_items, w'.
  split; [reflexivity|]. split; [exact Ha|]. split; [exact Hf | exact Hall].
Defined.


Lemma add_to_cart_writes_one_cart_witness :
  ∃ res w',
    add_to_cart sim stock_10 draw "alice" [tomatoe (Some 3)] false 200 stocked
    = Some (res, w')
    ∧ shopping_cart_items (db w') !! (2, 7%N)
      = shopping_cart_items (db stocked) !! (2, 7%N).
Proof.
  destruct (add_to_cart sim stock_10 draw "alice" [tomatoe (Some 3)] false 200
              stocked) as [[res w']|] eqn:Hrun; [|vm_compute in Hrun; discriminate].
  exists res, w'. split; [reflexivity|].
  apply (add_to_cart_writes_one_cart sim stock_10 draw "alice"
           [tomatoe (Some 3)] false 200 stocked w' res Hrun 2 7%N).
  vm_compute. discriminate.
Defined.

Lemma add_to_cart_keeps_lines_positive_witness :
  ∃ res w',
    add_to_cart sim stock_10 draw "alice" [tomatoe (Some 9)] false 200 stocked
    = Some (res, w')
    ∧ positive_lines (db w').
Proof.
  destruct (add_to_cart sim stock_10 draw "alice" [tomatoe (Some 9)] false 200
              stocked) as [[res w']|] eqn:Hrun; [|vm_compute in Hrun; discriminate].
  exists res, w'. split; [reflexivity|].
  apply (add_to_cart_keeps_lines_positive sim stock_10 draw "alice"
           [tomatoe (Some 9)] false 200 stocked w' res); [|exact Hrun].
  apply map_Forall_singleton. reflexivity.
Defined.

Lemma add_to_cart_returns_cart_totals_witness :
  ∃ success added failed cart_total total_items w',
    add_to_cart sim stock_10 draw "alice" [tomatoe (Some 3)] false 200 stocked
    = Some (Added success added failed cart_total total_items, w')
    ∧ cart_total = summary_total_price (get_cart stock_10 "alice" w').1
    ∧ total_items = summary_total_items (get_cart stock_10 "alice" w').1.
Proof.
  destruct (add_to_cart sim stock_10 draw "alice" [tomatoe (Some 3)] false 200
              stocked)
    as [[[error echoed|success added failed cart_total total_items] w']|] eqn:Hrun;
    [vm_compute in Hrun; discriminate| |vm_compute in Hrun; discriminate].
  destruct (add_to_cart_returns_cart_totals sim stock_10 draw "alice" _ false 200
              stocked w' success added failed cart_total total_items Hrun)
    as (_ & _ & Ht & Hn).
  exists success, added, failed, cart_total, total_items, w'.
  split; [reflexivity|]. split; [exact Ht | exact Hn].
Defined.

Lemma found_product_is_priced_by_default_witness :
  ∃ product,
    _search_product sim (db fresh) "Tomatoe" false (Some "Vegetables") None
    = Some product
    ∧ f_category product = Some "Unknown"
    ∧ 200 ≤ _generate_price (f_category product) (15 # 16) ≤ 1000.
Proof.
  destruct (_search_product sim (db fresh) "Tomatoe" false (Some "Vegetables")
              None) as [product|] eqn:Hsearch;
    [|vm_compute in Hsearch; discriminate].
  destruct (found_product_is_priced_by_default sim (db fresh) "Tomatoe" false
              (Some "Vegetables") None product (15 # 16) Hsearch)
    as (Hcat & _ & Hprice).
  - split; vm_compute; [discriminate | reflexivity].
  - exists product. split; [reflexivity|]. split; [exact Hcat | exact Hprice].
Defined.

Lemma generated_price_within_range_witness :
  200 ≤ _generate_price (Some "Vegetables") (15 # 16) ≤ 800.
Proof.
  apply (generated_price_within_range (Some "Vegetables") (15 # 16)).
  split; vm_compute; [discriminate | reflexivity].
Defined.

End MoreRuns.
